(** * firebase-auth-sdk: session resolver, access gates and security-token workflow

    A shallow embedding of [src/middleware/auth.js],
    [src/middleware/validation.js], [src/models/userModel.js] and the
    handlers of [src/controllers/userController.js].

    JavaScript objects are ordered association lists with the language's
    read, write, spread and rest-destructuring semantics.  The handlers are
    written in a state-and-exception monad over a world made of the
    Firestore [users] collection, the Firebase Auth account table and a log
    of the external writes that were committed, in order.  Everything a
    request reads from outside (the clock, the random source, the outcome of
    token verification, which external call throws) is in its environment. *)

From Stdlib Require Import String Ascii List ZArith Lia Bool.
Import ListNotations.
Local Open Scope string_scope.
Local Open Scope Z_scope.
Set Warnings "-register-all".

(* ================================================================== *)
(** * JavaScript values and objects *)
(* ================================================================== *)

Module JS.

(** A JSON-like value.  [VTime] is a [Date] (a Firestore Timestamp once
    stored), kept apart from numbers as the store keeps them apart. *)
Inductive value : Type :=
| VUndef
| VNull
| VBool (b : bool)
| VNum (n : Z)
| VStr (s : string)
| VTime (ms : Z)
| VObj (fields : list (string * value)).

(** An object: its own enumerable properties in insertion order. *)
Definition obj : Type := list (string * value).

(** [ToBoolean]: what [!v], [a || b] and [if (v)] test. *)
Definition truthy (v : value) : bool :=
  match v with
  | VUndef | VNull => false
  | VBool b => b
  | VNum n => negb (n =? 0)
  | VStr s => negb (String.eqb s "")
  | VTime _ | VObj _ => true
  end.

(** [a || b] *)
Definition js_or (a b : value) : value := if truthy a then a else b.

(** [a === b] on primitives.  Objects and dates compare by reference; in
    every use below one operand is a string or [undefined], so two object
    operands never meet and the last row is never an identity test. *)
Definition strict_eq (a b : value) : bool :=
  match a, b with
  | VUndef, VUndef => true
  | VNull, VNull => true
  | VBool x, VBool y => Bool.eqb x y
  | VNum x, VNum y => x =? y
  | VStr x, VStr y => String.eqb x y
  | _, _ => false
  end.

(** Own-property lookup. *)
Fixpoint lookup (k : string) (o : obj) : option value :=
  match o with
  | [] => None
  | (k', v) :: o' => if String.eqb k k' then Some v else lookup k o'
  end.

(** [o.k]: a missing property reads as [undefined]. *)
Definition prop (k : string) (o : obj) : value :=
  match lookup k o with
  | Some v => v
  | None => VUndef
  end.

(** [o[k] = v]: an existing key keeps its position, a new key goes last. *)
Fixpoint set (k : string) (v : value) (o : obj) : obj :=
  match o with
  | [] => [(k, v)]
  | (k', v') :: o' =>
      if String.eqb k k' then (k, v) :: o' else (k', v') :: set k v o'
  end.

(** [Object.keys(o)] *)
Definition keys (o : obj) : list string := map fst o.

(** [{ ...base, ...ext }]: every own key of [ext], in order, is read from
    [ext] and written to the result. *)
Definition spread (base ext : obj) : obj :=
  fold_left (fun acc k => set k (prop k ext) acc) (keys ext) base.

(** [const { k1, ..., kn, ...rest } = o]: the rest object. *)
Definition omit (ks : list string) (o : obj) : obj :=
  filter (fun kv => negb (existsb (String.eqb (fst kv)) ks)) o.

(** Deep structural equality, the comparison the document store applies in
    an equality filter. *)
Fixpoint value_eqb (a b : value) {struct a} : bool :=
  match a, b with
  | VUndef, VUndef => true
  | VNull, VNull => true
  | VBool x, VBool y => Bool.eqb x y
  | VNum x, VNum y => x =? y
  | VStr x, VStr y => String.eqb x y
  | VTime x, VTime y => x =? y
  | VObj fa, VObj fb =>
      (fix go (xs ys : list (string * value)) {struct xs} : bool :=
         match xs, ys with
         | [], [] => true
         | (k, v) :: xs', (k', v') :: ys' =>
             String.eqb k k' && value_eqb v v' && go xs' ys'
         | _, _ => false
         end) fa fb
  | _, _ => false
  end.

(** [s.split(sep)] for a one-character separator. *)
Fixpoint split (sep : ascii) (s : string) : list string :=
  match s with
  | EmptyString => [EmptyString]
  | String c s' =>
      if Ascii.eqb c sep then EmptyString :: split sep s'
      else match split sep s' with
           | [] => [String c EmptyString]
           | p :: ps => String c p :: ps
           end
  end.

(** [s.startsWith(p)] *)
Definition startsWith (p s : string) : bool := String.prefix p s.

(** [a[i]] on an array of strings: [undefined] out of range. *)
Definition index (a : list string) (i : nat) : value :=
  match nth_error a i with
  | Some s => VStr s
  | None => VUndef
  end.

(** The property names every ordinary object (an object literal, a parsed
    JSON body, [req.params]) inherits from [Object.prototype]. *)
Definition inherited : list string :=
  ["constructor"; "__defineGetter__"; "__defineSetter__"; "hasOwnProperty";
   "__lookupGetter__"; "__lookupSetter__"; "isPrototypeOf";
   "propertyIsEnumerable"; "toString"; "valueOf"; "__proto__";
   "toLocaleString"].

End JS.
Export JS.

(* ================================================================== *)
(** * The outside world and the effects of a handler *)
(* ================================================================== *)

(** A thrown JavaScript error: its optional [code] and its [message]. *)
Record error : Type := mkError {
  err_code : option string;
  err_message : string
}.

Inductive outcome (A : Type) : Type :=
| Ok (a : A)
| Throw (e : error).
Arguments Ok {A} a.
Arguments Throw {A} e.

(** A Firebase Auth user record. *)
Record account : Type := mkAccount {
  acc_email : value;
  acc_displayName : value;
  acc_password : value;
  acc_emailVerified : bool;
  acc_disabled : bool;
  acc_creationTime : value;
  acc_lastSignInTime : value
}.

(** The claims of a verified ID token that the service reads.  [uid] is
    the token's [sub] claim: verification rejects a token whose [sub] is not
    a non-empty string, so a decoded token always carries one. *)
Record decodedToken : Type := mkDecoded {
  uid : string;
  email : value;
  email_verified : value;
  uid_given : String.eqb uid "" = false
}.

(** External writes that were committed, in the order they happened. *)
Inductive event : Type :=
| EvAuthUpdate (uid : string) (props : obj)
| EvDocUpdate (id : string) (fields : obj)
| EvMail (to : value) (template : string) (token : string).

Record world : Type := mkWorld {
  users : list (string * obj);
  accounts : list (string * account);
  trace : list event
}.

(** The external calls a handler makes. *)
Inductive op : Type :=
| OpDocGet | OpDocUpdate | OpQuery | OpSearch
| OpGetUserByEmail | OpAuthGetUser | OpAuthUpdateUser
| OpSendMail.

(** What one request reads from outside: [Date.now()], the hex string of
    [crypto.randomBytes(32)], the answer of [auth.verifyIdToken], an outage
    of any external call (the error it throws), the documents the store
    selects for a filtered, ordered and paginated search, and [NODE_ENV]. *)
Record env : Type := mkEnv {
  now : Z;
  randomHex : string;
  verifyIdToken : string -> outcome decodedToken;
  fault : op -> option error;
  firestoreSearch : obj -> Z -> value -> list (string * obj) -> list (string * obj);
  NODE_ENV : option string
}.

(** State and exceptions: an [async] function body. *)
Definition M (A : Type) : Type := world -> outcome A * world.

Definition ret {A} (a : A) : M A := fun w => (Ok a, w).

Definition throw {A} (e : error) : M A := fun w => (Throw e, w).

Definition bind {A B} (m : M A) (k : A -> M B) : M B :=
  fun w =>
    match m w with
    | (Ok a, w') => k a w'
    | (Throw e, w') => (Throw e, w')
    end.

(** [try { m } catch (e) { h e }] *)
Definition try_catch {A} (m : M A) (h : error -> M A) : M A :=
  fun w =>
    match m w with
    | (Ok a, w') => (Ok a, w')
    | (Throw e, w') => h e w'
    end.

Declare Scope js_scope.
Delimit Scope js_scope with js.
Notation "x <- m ;; k" := (bind m (fun x => k))
  (at level 100, m at next level, right associativity) : js_scope.
Notation "m ;;; k" := (bind m (fun _ => k))
  (at level 100, right associativity) : js_scope.
Local Open Scope js_scope.

(** An HTTP response: [res.status(s).json(b)]. *)
Record response : Type := mkResponse {
  status : Z;
  body : obj
}.

(** What an Express middleware does: answer, or call [next()] with the
    [req.user] it leaves on the request. *)
Inductive mw_result : Type :=
| Respond (r : response)
| Next (user : option obj).

(** A handler whose whole body sits in [try { ... } catch (error) { ... }]
    and whose catch block answers. *)
Definition handler {A} (m : M A) (on_error : error -> A) (w : world)
  : A * world :=
  match m w with
  | (Ok r, w') => (r, w')
  | (Throw e, w') => (on_error e, w')
  end.

(** The plain [new Error(message)]. *)
Definition Error_ (m : string) : error := mkError None m.

(** ** Firestore: the [users] collection *)

Definition doc : Type := (string * obj)%type.

Definition find_doc (id : string) (us : list doc) : option obj :=
  match find (fun d => String.eqb id (fst d)) us with
  | Some d => Some (snd d)
  | None => None
  end.

(** [collection.doc(id).get()]: the snapshot's data, [None] when
    [!snapshot.exists]. *)
Definition doc_get (E : env) (id : string) : M (option obj) :=
  fun w =>
    match fault E OpDocGet with
    | Some e => (Throw e, w)
    | None => (Ok (find_doc id (users w)), w)
    end.

Definition update_docs (id : string) (fields : obj) (us : list doc)
  : list doc :=
  map (fun d => if String.eqb id (fst d)
                then (fst d, spread (snd d) fields) else d) us.

(** [ref.update(fields)]: sets the given fields on the document and leaves
    the others; throws when the document does not exist. *)
Definition doc_update (E : env) (id : string) (fields : obj) : M unit :=
  fun w =>
    match fault E OpDocUpdate with
    | Some e => (Throw e, w)
    | None =>
        match find_doc id (users w) with
        | None => (Throw (mkError (Some "not-found") "No document to update"), w)
        | Some _ =>
            (Ok tt, mkWorld (update_docs id fields (users w))
                            (accounts w)
                            (trace w ++ [EvDocUpdate id fields]))
        end
    end.

(** [.where(f, '==', v)]: the field is present and equal to [v]. *)
Definition where_eq (f : string) (v : value) (d : doc) : bool :=
  match lookup f (snd d) with
  | Some x => value_eqb x v
  | None => false
  end.

(** [.where(f, '>', n)] for a number [n]: the field is a number greater
    than [n].  The store orders values within one type, so a field of
    another type (a Timestamp, a string, null) does not match. *)
Definition where_gt (f : string) (n : Z) (d : doc) : bool :=
  match lookup f (snd d) with
  | Some (VNum e) => n <? e
  | _ => false
  end.

(** [.where(tokF, '==', token).where(expF, '>', Date.now()).limit(1).get()]:
    the snapshot's [docs].  Matching documents come in the order the
    collection lists them; which of several matches comes first is the
    store's choice and nothing below depends on it. *)
Definition query_token (E : env) (tokF expF : string) (token : value)
  : M (list doc) :=
  fun w =>
    match fault E OpQuery with
    | Some e => (Throw e, w)
    | None =>
        (Ok (firstn 1 (filter (fun d => where_eq tokF token d
                                        && where_gt expF (now E) d)
                              (users w))), w)
    end.

(** ** Firebase Auth *)

Definition find_account (u : string) (accs : list (string * account))
  : option account :=
  match find (fun a => String.eqb u (fst a)) accs with
  | Some a => Some (snd a)
  | None => None
  end.

Definition user_not_found : error :=
  mkError (Some "auth/user-not-found") "There is no user record".

(** [auth.getUserByEmail(email)] *)
Definition auth_getUserByEmail (E : env) (em : value)
  : M (string * account) :=
  fun w =>
    match fault E OpGetUserByEmail with
    | Some e => (Throw e, w)
    | None =>
        match em with
        | VStr _ =>
            match find (fun a => strict_eq (acc_email (snd a)) em) (accounts w) with
            | Some a => (Ok a, w)
            | None => (Throw user_not_found, w)
            end
        | _ => (Throw (mkError (Some "auth/invalid-email") "Invalid email"), w)
        end
    end.

(** [auth.getUser(uid)] *)
Definition auth_getUser (E : env) (u : string) : M account :=
  fun w =>
    match fault E OpAuthGetUser with
    | Some e => (Throw e, w)
    | None =>
        match find_account u (accounts w) with
        | Some a => (Ok a, w)
        | None => (Throw user_not_found, w)
        end
    end.

(** A property of an update request: one set to [undefined] is as good as
    absent. *)
Definition given (k : string) (props : obj) : option value :=
  match lookup k props with
  | Some VUndef | None => None
  | Some v => Some v
  end.

(** A password the identity provider accepts: a string of at least six
    characters. *)
Definition acceptable_password (v : value) : bool :=
  match v with
  | VStr s => (6 <=? Z.of_nat (String.length s))
  | _ => false
  end.

(** What the SDK checks of the properties before it calls the service: a
    [password] that is given must be acceptable, an [emailVerified] that is
    given must be a boolean. *)
Definition rejected_props (props : obj) : option error :=
  match given "password" props with
  | Some p =>
      if acceptable_password p then None
      else Some (mkError (Some "auth/invalid-password")
                   "The password must be a string with at least 6 characters.")
  | None =>
      match given "emailVerified" props with
      | Some (VBool _) | None => None
      | Some _ =>
          Some (mkError (Some "auth/invalid-email-verified")
                  "The emailVerified field must be a boolean.")
      end
  end.

(** The properties [auth.updateUser] is given by the handlers below. *)
Definition apply_props (props : obj) (a : account) : account :=
  mkAccount (acc_email a) (acc_displayName a)
            (match given "password" props with
             | Some p => p
             | None => acc_password a
             end)
            (match given "emailVerified" props with
             | Some (VBool b) => b
             | _ => acc_emailVerified a
             end)
            (acc_disabled a) (acc_creationTime a) (acc_lastSignInTime a).

Definition update_accounts (u : string) (props : obj)
  (accs : list (string * account)) : list (string * account) :=
  map (fun a => if String.eqb u (fst a)
                then (fst a, apply_props props (snd a)) else a) accs.

(** [auth.updateUser(uid, props)]: [uid] is whatever the caller passes.
    The SDK rejects a [uid] that is not a string and properties it does not
    accept before it calls the service; the service then fails, or knows no
    such account, or applies the update. *)
Definition auth_updateUser (E : env) (u : value) (props : obj) : M unit :=
  fun w =>
    match u with
    | VStr s =>
        match rejected_props props with
        | Some e => (Throw e, w)
        | None =>
            match fault E OpAuthUpdateUser with
            | Some e => (Throw e, w)
            | None =>
                match find_account s (accounts w) with
                | Some _ =>
                    (Ok tt, mkWorld (users w)
                                    (update_accounts s props (accounts w))
                                    (trace w ++ [EvAuthUpdate s props]))
                | None => (Throw user_not_found, w)
                end
            end
        end
    | _ => (Throw (mkError (Some "auth/invalid-uid") "Invalid uid"), w)
    end.

(** [auth.verifyIdToken(token)] *)
Definition auth_verifyIdToken (E : env) (token : value) : M decodedToken :=
  fun w =>
    match token with
    | VStr t =>
        match verifyIdToken E t with
        | Ok d => (Ok d, w)
        | Throw e => (Throw e, w)
        end
    | _ => (Throw (mkError (Some "auth/argument-error") "Invalid token"), w)
    end.

(** [e.code === c] *)
Definition code_is (e : error) (c : string) : bool :=
  match err_code e with
  | Some c' => String.eqb c' c
  | None => false
  end.

(* ================================================================== *)
(** * utils/emailService.js *)
(* ================================================================== *)

Module EmailService.

(** [sendEmail]: whatever goes wrong while rendering or sending is rethrown
    as [new Error('Failed to send email')]. *)
Definition sendEmail (E : env) (to : value) (template token : string)
  : M unit :=
  fun w =>
    match fault E OpSendMail with
    | Some _ => (Throw (Error_ "Failed to send email"), w)
    | None =>
        (Ok tt, mkWorld (users w) (accounts w)
                        (trace w ++ [EvMail to template token]))
    end.

Definition sendPasswordResetEmail (E : env) (user : obj) (token : string)
  : M unit :=
  sendEmail E (prop "email" user) "reset-password" token.

End EmailService.

(* ================================================================== *)
(** * models/userModel.js *)
(* ================================================================== *)

Module UserModel.

(** [getUserById(uid)]: [null] for a missing document, otherwise
    [{ id: userDoc.id, ...userDoc.data() }].  [collection.doc(uid)] throws
    on an empty path, inside the [try]; that and a store failure are
    rethrown under one fixed message. *)
Definition getUserById (E : env) (uid : string) : M (option obj) :=
  try_catch
    (if String.eqb uid ""
     then throw (Error_ "Path must be a non-empty string")
     else
       userDoc <- doc_get E uid ;;
       match userDoc with
       | None => ret None
       | Some data => ret (Some (spread [("id", VStr uid)] data))
       end)
    (fun _ => throw (Error_ "Error al obtener los datos del usuario")).

(** The body of [snapshot.forEach] in [searchUsers]:
    [const { password, tokens, ...safeUserData } = doc.data()] and
    [users.push({ id: doc.id, ...safeUserData })]. *)
Definition safeUser (d : doc) : obj :=
  let safeUserData := omit ["password"; "tokens"] (snd d) in
  spread [("id", VStr (fst d))] safeUserData.

(** [searchUsers(filters, limit, startAfter)].  Building and running the
    query (the [where], [orderBy], [startAfter] and [limit] clauses) is the
    store's work: its snapshot is [firestoreSearch]. *)
Definition searchUsers (E : env) (filters : obj) (limit : Z)
  (startAfter : value) : M (list obj) :=
  try_catch
    (fun w =>
       match fault E OpSearch with
       | Some e => (Throw e, w)
       | None =>
           let snapshot := firestoreSearch E filters limit startAfter (users w) in
           (Ok (map safeUser snapshot), w)
       end)
    (fun _ => throw (Error_ "Error al buscar usuarios")).

End UserModel.

(* ================================================================== *)
(** * middleware/auth.js *)
(* ================================================================== *)

Module Middleware.

Definition json (s : Z) (b : obj) : mw_result := Respond (mkResponse s b).

Definition MISSING_AUTH_TOKEN : obj :=
  [("success", VBool false);
   ("error", VStr "No autorizado");
   ("message", VStr "Se requiere un token de autenticación");
   ("code", VStr "MISSING_AUTH_TOKEN")].

Definition EMPTY_AUTH_TOKEN : obj :=
  [("success", VBool false);
   ("error", VStr "No autorizado");
   ("message", VStr "El token de autenticación está vacío");
   ("code", VStr "EMPTY_AUTH_TOKEN")].

Definition TOKEN_EXPIRED : obj :=
  [("success", VBool false);
   ("error", VStr "Sesión expirada");
   ("message", VStr "Tu sesión ha expirado. Por favor, inicia sesión nuevamente.");
   ("code", VStr "TOKEN_EXPIRED")].

Definition INVALID_TOKEN : obj :=
  [("success", VBool false);
   ("error", VStr "Token inválido");
   ("message", VStr "El formato del token no es válido o está corrupto");
   ("code", VStr "INVALID_TOKEN")].

Definition USER_FETCH_ERROR : obj :=
  [("success", VBool false);
   ("error", VStr "Error del servidor");
   ("message", VStr "No se pudo recuperar la información del usuario");
   ("code", VStr "USER_FETCH_ERROR")].

Definition USER_NOT_FOUND : obj :=
  [("success", VBool false);
   ("error", VStr "Usuario no encontrado");
   ("message", VStr "El perfil de usuario no existe en la base de datos");
   ("code", VStr "USER_NOT_FOUND")].

Definition ACCOUNT_INACTIVE (user : obj) : obj :=
  [("success", VBool false);
   ("error", VStr "Cuenta inactiva");
   ("message", VStr "Tu cuenta ha sido desactivada o suspendida");
   ("code", VStr "ACCOUNT_INACTIVE");
   ("status", prop "status" user)].

Definition AUTH_ERROR (E : env) (e : error) : obj :=
  [("success", VBool false);
   ("error", VStr "Error de autenticación");
   ("message", VStr "Ocurrió un error al procesar la autenticación");
   ("code", VStr "AUTH_ERROR");
   ("details", match NODE_ENV E with
               | Some m => if String.eqb m "development"
                           then VStr (err_message e) else VUndef
               | None => VUndef
               end)].

(** [req.user] as [isAuthenticated] builds it. *)
Definition principal (d : decodedToken) (user : obj) : obj :=
  spread [("id", VStr (uid d));
          ("email", email d);
          ("emailVerified", js_or (email_verified d) (VBool false))]
         user.

(** [isAuthenticated]: [authorization] is [req.headers.authorization]. *)
Definition isAuthenticated (E : env) (authorization : option string)
  (w : world) : mw_result * world :=
  handler
    (match authorization with
     | None => ret (json 401 MISSING_AUTH_TOKEN)
     | Some authHeader =>
         if negb (truthy (VStr authHeader))
            || negb (startsWith "Bearer " authHeader)
         then ret (json 401 MISSING_AUTH_TOKEN)
         else
           let token := index (split " " authHeader) 1 in
           if negb (truthy token)
           then ret (json 401 EMPTY_AUTH_TOKEN)
           else
             v <- try_catch
                    (d <- auth_verifyIdToken E token ;; ret (inr d))
                    (fun authError =>
                       if code_is authError "auth/id-token-expired"
                       then ret (inl (json 401 TOKEN_EXPIRED))
                       else if code_is authError "auth/argument-error"
                               || code_is authError "auth/invalid-id-token"
                       then ret (inl (json 400 INVALID_TOKEN))
                       else throw authError) ;;
             match v with
             | inl answered => ret answered
             | inr decoded =>
                 u <- try_catch
                        (user <- UserModel.getUserById E (uid decoded) ;;
                         ret (inr user))
                        (fun dbError => ret (inl (json 500 USER_FETCH_ERROR))) ;;
                 match u with
                 | inl answered => ret answered
                 | inr None => ret (json 404 USER_NOT_FOUND)
                 | inr (Some user) =>
                     if negb (strict_eq (prop "status" user) (VStr "active"))
                     then ret (json 403 (ACCOUNT_INACTIVE user))
                     else ret (Next (Some (principal decoded user)))
                 end
             end
     end)
    (fun error => json 500 (AUTH_ERROR E error))
    w.

Definition unauthenticated : obj :=
  [("error", VStr "No autenticado");
   ("details", VStr "Se requiere autenticación para acceder a este recurso")].

(** [isAdmin]: [user] is [req.user]. *)
Definition isAdmin (user : option obj) : mw_result :=
  match user with
  | None => json 401 unauthenticated
  | Some u =>
      if negb (strict_eq (prop "role" u) (VStr "admin"))
      then json 403
             [("error", VStr "Acceso denegado");
              ("details", VStr "Se requieren privilegios de administrador para acceder a este recurso")]
      else Next user
  end.

(** [roles.includes(v)] for an array of role names. *)
Definition includes (roles : list string) (v : value) : bool :=
  existsb (fun r => strict_eq (VStr r) v) roles.

(** [hasRole(roles)] *)
Definition hasRole (roles : list string) (user : option obj) : mw_result :=
  match user with
  | None => json 401 unauthenticated
  | Some u =>
      if negb (includes roles (prop "role" u))
      then json 403
             [("error", VStr "Acceso denegado");
              ("details", VStr "No tienes los permisos necesarios para acceder a este recurso")]
      else Next user
  end.

(** [req.params]: the route parameters, strings keyed by name. *)
Definition params : Type := list (string * string).

(** The route parameter called [name], if the route has one. *)
Fixpoint own (name : string) (ps : params) : option string :=
  match ps with
  | [] => None
  | (k, v) :: ps' => if String.eqb name k then Some v else own name ps'
  end.

(** What reading [req.params[name]] yields: the route parameter; failing
    that, for a name every object inherits, the member of
    [Object.prototype] under that name (a built-in function, or the
    prototype itself for [__proto__]); [undefined] otherwise. *)
Inductive member : Type :=
| Own (v : string)
| Inherited (name : string)
| Missing.

(** [req.params[name]] *)
Definition param (name : string) (ps : params) : member :=
  match own name ps with
  | Some v => Own v
  | None => if existsb (String.eqb name) inherited then Inherited name
            else Missing
  end.

(** [m === v] for a value [v] of the principal.  A built-in is identical
    only to itself, and no field of a principal holds one: its values come
    out of a token and a stored document. *)
Definition identical (m : member) (v : value) : bool :=
  match m with
  | Own s => strict_eq (VStr s) v
  | Inherited _ => false
  | Missing => strict_eq VUndef v
  end.

Definition ownership_denied : obj :=
  [("error", VStr "Acceso denegado");
   ("details", VStr "Solo puedes acceder a tus propios recursos")].

(** [isOwnerOrAdmin(idParam)] *)
Definition isOwnerOrAdmin (idParam : string) (user : option obj)
  (ps : params) : mw_result :=
  match user with
  | None => json 401 unauthenticated
  | Some u =>
      if strict_eq (prop "role" u) (VStr "admin") then Next user
      else
        let resourceId := param idParam ps in
        if negb (identical resourceId (prop "id" u))
        then json 403 ownership_denied
        else Next user
  end.

End Middleware.

(* ================================================================== *)
(** * controllers/userController.js *)
(* ================================================================== *)

Module UserController.

Definition json (s : Z) (b : obj) : response := mkResponse s b.

(** Evaluating the identifier [db] in this module.  Its first line is
    [const { auth } = require('../config/firebase')]: the module imports
    [auth] alone, declares no [db] anywhere, and [config/firebase] sets no
    global of that name.  So wherever a handler reaches an expression that
    starts with [db], a [ReferenceError] is thrown there, before any part
    of the expression is evaluated. *)
Definition db : M unit := throw (Error_ "db is not defined").

(** [generateToken()]: [crypto.randomBytes(32).toString('hex')]. *)
Definition generateToken (E : env) : string := randomHex E.

(** [getUserById]: [user] is [req.user], [id] is [req.params.id]. *)
Definition getUserById (E : env) (user : obj) (id : string)
  (w : world) : response * world :=
  handler
    (let isAdmin := strict_eq (prop "role" user) (VStr "admin") in
     let isSelf := strict_eq (prop "id" user) (VStr id) in
     if negb isAdmin && negb isSelf
     then ret (json 403
                 [("error", VStr "No autorizado");
                  ("details", VStr "No tienes permiso para ver este perfil")])
     else
       found <- UserModel.getUserById E id ;;
       match found with
       | None =>
           ret (json 404
                  [("error", VStr "Usuario no encontrado");
                   ("details", VStr "El ID proporcionado no corresponde a ningún usuario")])
       | Some profile =>
           try_catch
             (authUser <- auth_getUser E id ;;
              ret (json 200
                     (spread
                        [("id", VStr id);
                         ("email", acc_email authUser);
                         ("emailVerified", VBool (acc_emailVerified authUser));
                         ("disabled", VBool (acc_disabled authUser));
                         ("metadata",
                          VObj [("creationTime", acc_creationTime authUser);
                                ("lastSignInTime", acc_lastSignInTime authUser)])]
                        profile)))
             (fun authError =>
                if code_is authError "auth/user-not-found"
                then ret (json 200 (spread [("id", VStr id)] profile))
                else throw authError)
       end)
    (fun error =>
       json 500 [("error", VStr "Error al obtener el usuario");
                 ("details", VStr (err_message error))])
    w.

Definition generic_reset_message : obj :=
  [("message",
    VStr "If an account with that email exists, a password reset link has been sent")].

(** [requestPasswordReset]: [body] is [req.body]. *)
Definition requestPasswordReset (E : env) (body : obj)
  (w : world) : response * world :=
  handler
    (let email := prop "email" body in
     user <- try_catch
               (u <- auth_getUserByEmail E email ;; ret (Some u))
               (fun _ => ret None) ;;
     match user with
     | None => ret (json 200 generic_reset_message)
     | Some (uid, record) =>
         let resetToken := generateToken E in
         let resetTokenExpiry := now E + 3600000 in
         db ;;;
         doc_update E uid
           [("resetToken", VStr resetToken);
            ("resetTokenExpiry", VNum resetTokenExpiry)] ;;;
         sent <- try_catch
                   (EmailService.sendPasswordResetEmail E
                      [("email", acc_email record);
                       ("displayName",
                        js_or (acc_displayName record) (VStr "User"))]
                      resetToken ;;;
                    ret None)
                   (fun emailError =>
                      ret (Some (json 500
                                   [("error",
                                     VStr "Error sending password reset email")]))) ;;
         match sent with
         | Some answered => ret answered
         | None => ret (json 200 generic_reset_message)
         end
     end)
    (fun error =>
       json 500 [("error", VStr "Error processing password reset request")])
    w.

Definition invalid_reset_token : response :=
  json 400 [("error", VStr "Invalid or expired token")].

(** [resetPassword]: [body] is [req.body]. *)
Definition resetPassword (E : env) (body : obj)
  (w : world) : response * world :=
  handler
    (let token := prop "token" body in
     let newPassword := prop "newPassword" body in
     if negb (truthy token) || negb (truthy newPassword)
     then ret (json 400 [("error", VStr "Token and new password are required")])
     else
       db ;;;
       docs <- query_token E "resetToken" "resetTokenExpiry" token ;;
       match docs with
       | [] => ret invalid_reset_token
       | userDoc :: _ =>
           let userData := snd userDoc in
           auth_updateUser E (prop "uid" userData)
             [("password", newPassword)] ;;;
           doc_update E (fst userDoc)
             [("resetToken", VNull); ("resetTokenExpiry", VNull)] ;;;
           ret (json 200 [("message", VStr "Password has been reset successfully")])
       end)
    (fun error => json 500 [("error", VStr "Error resetting password")])
    w.

Definition invalid_verification_token : response :=
  json 400 [("error", VStr "Invalid or expired verification token")].

(** [verifyEmail]: [query] is [req.query]. *)
Definition verifyEmail (E : env) (query : obj)
  (w : world) : response * world :=
  handler
    (let token := prop "token" query in
     if negb (truthy token)
     then ret (json 400 [("error", VStr "Verification token is required")])
     else
       db ;;;
       docs <- query_token E "emailVerificationToken"
                 "emailVerificationExpires" token ;;
       match docs with
       | [] => ret invalid_verification_token
       | userDoc :: _ =>
           let userData := snd userDoc in
           auth_updateUser E (prop "uid" userData)
             [("emailVerified", VBool true)] ;;;
           doc_update E (fst userDoc)
             [("emailVerified", VBool true);
              ("emailVerificationToken", VNull);
              ("emailVerificationExpires", VNull)] ;;;
           ret (json 200 [("message", VStr "Email verified successfully")])
       end)
    (fun error => json 500 [("error", VStr "Error verifying email")])
    w.

End UserController.

(* ================================================================== *)
(** * Vocabulary of the properties, and sample requests *)
(* ================================================================== *)

(** The middleware answered with status [s] and machine code [code]. *)
Definition answers (r : mw_result) (s : Z) (code : string) : Prop :=
  exists b, r = Respond (mkResponse s b) /\ prop "code" b = VStr code.

(** The token claims [isAuthenticated] lists before spreading the profile. *)
Definition token_claims (d : decodedToken) : obj :=
  [("id", VStr (uid d));
   ("email", email d);
   ("emailVerified", js_or (email_verified d) (VBool false))].

Definition no_fault : op -> option error := fun _ => None.

Definition whole_collection (_ : obj) (_ : Z) (_ : value)
  (us : list (string * obj)) : list (string * obj) := us.

Definition alice_claims : decodedToken :=
  mkDecoded "u1" (VStr "alice@new.example") (VBool true) eq_refl.

(** An identity provider that knows one session and reports every other
    token as malformed. *)
Definition one_session (t : string) : outcome decodedToken :=
  if String.eqb t "tok-alice" then Ok alice_claims
  else Throw (mkError (Some "auth/argument-error")
                      "Decoding Firebase ID token failed").

Definition E_sample : env :=
  mkEnv 1700000000000
        "5f2c9a1e5f2c9a1e5f2c9a1e5f2c9a1e5f2c9a1e5f2c9a1e5f2c9a1e5f2c9a1e"
        one_session no_fault whole_collection None.

(** The sample environment with the clock at [n]. *)
Definition E_at (n : Z) : env :=
  mkEnv n
        "5f2c9a1e5f2c9a1e5f2c9a1e5f2c9a1e5f2c9a1e5f2c9a1e5f2c9a1e5f2c9a1e"
        one_session no_fault whole_collection None.

Definition alice_account : account :=
  mkAccount (VStr "alice@new.example") (VStr "Alice") (VStr "old-secret")
            true false (VStr "2024-01-01") (VStr "2024-06-01").

(** A profile whose copy of the email is older than the provider's. *)
Definition alice_profile : obj :=
  [("uid", VStr "u1");
   ("email", VStr "alice@old.example");
   ("emailVerified", VBool false);
   ("role", VStr "patient");
   ("status", VStr "active")].

Definition w_alice : world :=
  mkWorld [("u1", alice_profile)] [("u1", alice_account)] [].

Definition w_suspended : world :=
  mkWorld [("u1", set "status" (VStr "suspended") alice_profile)]
          [("u1", alice_account)] [].

(** The same profile with a reset token and a verification token issued. *)
Definition issued_profile : obj :=
  (alice_profile
   ++ [("resetToken", VStr "r-4be1");
       ("resetTokenExpiry", VNum 1700003600000);
       ("emailVerificationToken", VStr "v-77c0");
       ("emailVerificationExpires", VNum 1700086400000)])%list.

Definition w_issued : world :=
  mkWorld [("u1", issued_profile)] [("u1", alice_account)] [].


(** [req.user] for Alice, and for an administrator. *)
Definition alice_principal : obj :=
  Middleware.principal alice_claims (spread [("id", VStr "u1")] alice_profile).

Definition admin_principal : obj :=
  [("id", VStr "u9"); ("email", VStr "root@clinic.example");
   ("emailVerified", VBool true); ("role", VStr "admin");
   ("status", VStr "active")].

Definition mail_down (o : op) : option error :=
  match o with
  | OpSendMail => Some (Error_ "connect ECONNREFUSED smtp")
  | _ => None
  end.

Definition E_mail_down : env :=
  mkEnv 1700000000000
        "5f2c9a1e5f2c9a1e5f2c9a1e5f2c9a1e5f2c9a1e5f2c9a1e5f2c9a1e5f2c9a1e"
        one_session mail_down whole_collection None.

(* ================================================================== *)
(** * models/userModel.js: the writes *)
(* ================================================================== *)

Module ProfileStore.

(** [admin.firestore.FieldValue.serverTimestamp()]: the store stamps the
    write with its clock, read here as the clock of the request. *)
Definition serverTimestamp (E : env) : value := VTime (now E).

(** [UserModel.updateUser(uid, updates)]: [uid] is whatever the caller
    passes to [collection.doc]; anything but a non-empty string throws
    there, inside the [try]. *)
Definition updateUser (E : env) (uid : value) (updates : obj) : M obj :=
  try_catch
    (match uid with
     | VStr u =>
         if String.eqb u ""
         then throw (Error_ "Path must be a non-empty string")
         else
           let safeUpdates := omit ["id"] updates in
           doc_update E u
             (spread safeUpdates [("updatedAt", serverTimestamp E)]) ;;;
           updatedDoc <- doc_get E u ;;
           ret (spread [("id", VStr u)]
                       (match updatedDoc with
                        | Some data => data
                        | None => []
                        end))
     | _ => throw (Error_ "Path must be a non-empty string")
     end)
    (fun _ => throw (Error_ "Error al actualizar los datos del usuario")).


End ProfileStore.

(* ================================================================== *)
(** * controllers/userController.js: profile, password and listing *)
(* ================================================================== *)

Module AccountHandlers.

Definition json (s : Z) (b : obj) : response := mkResponse s b.

(** [updateProfile]: [user] is [req.user], [body] is [req.body]. *)
Definition updateProfile (E : env) (user body : obj)
  (w : world) : response * world :=
  handler
    (let userId := prop "id" user in
     let updates := body in
     let safeUpdates := omit ["id"; "email"; "emailVerified"] updates in
     updatedUser <- ProfileStore.updateUser E userId safeUpdates ;;
     ret (json 200
            [("message", VStr "Perfil actualizado exitosamente");
             ("user", VObj updatedUser)]))
    (fun error =>
       json 500 [("error", VStr "Error al actualizar el perfil");
                 ("details", VStr (err_message error))])
    w.



(** What [getAllUsers] sends: [res.json(usersWithAuth)], an array, or one
    of its error answers. *)
Inductive listing : Type :=
| Listed (users : list obj)
| Refused (r : response).

(** The callback of [users.map] in [getAllUsers]: the profile with the
    provider's fields laid over it, or the profile alone when the provider
    call throws. *)
Definition withAuth (E : env) (user : obj) : M obj :=
  try_catch
    (authUser <- match prop "id" user with
                 | VStr u => auth_getUser E u
                 | _ => throw (mkError (Some "auth/invalid-uid") "Invalid uid")
                 end ;;
     ret (spread user
            [("email", js_or (acc_email authUser) (prop "email" user));
             ("emailVerified",
              js_or (VBool (acc_emailVerified authUser))
                    (prop "emailVerified" user));
             ("disabled", VBool (acc_disabled authUser));
             ("metadata",
              VObj [("creationTime", acc_creationTime authUser);
                    ("lastSignInTime", acc_lastSignInTime authUser)])]))
    (fun _ => ret user).

(** [Promise.all(users.map(f))]: the calls only read, so their results are
    those of running them in order. *)
Fixpoint all {A B} (f : A -> M B) (l : list A) : M (list B) :=
  match l with
  | [] => ret []
  | a :: l' => b <- f a ;; bs <- all f l' ;; ret (b :: bs)
  end.

(** [getAllUsers]: [user] is [req.user], [query] is [req.query]. *)
Definition getAllUsers (E : env) (user query : obj)
  (w : world) : listing * world :=
  handler
    (if negb (strict_eq (prop "role" user) (VStr "admin"))
     then ret (Refused (json 403
                          [("error", VStr "No autorizado");
                           ("details",
                            VStr "Solo los administradores pueden listar usuarios")]))
     else
       let role := prop "role" query in
       let status := match prop "status" query with
                     | VUndef => VStr "active"
                     | v => v
                     end in
       let search := prop "search" query in
       let filters := [("role", role); ("status", status)] in
       let filters := if truthy search then set "search" search filters
                      else filters in
       users <- UserModel.searchUsers E filters 10 VNull ;;
       usersWithAuth <- all (withAuth E) users ;;
       ret (Listed usersWithAuth))
    (fun error =>
       Refused (json 500
                  [("error", VStr "Error al obtener la lista de usuarios");
                   ("details", VStr (err_message error))]))
    w.

End AccountHandlers.

(* ================================================================== *)
(** * middleware/validation.js *)
(* ================================================================== *)

Module Validation.

(** What a validation middleware does: answer, or call [next()]. *)
Inductive verdict : Type :=
| Pass
| Reject (r : response).

(** [k in o]: an own key, whatever its value, or an inherited name. *)
Definition has (k : string) (o : obj) : bool :=
  existsb (String.eqb k) (keys o) || existsb (String.eqb k) inherited.

(** [a.join(sep)] *)
Fixpoint join (sep : string) (a : list string) : string :=
  match a with
  | [] => ""
  | [x] => x
  | x :: a' => x ++ sep ++ join sep a'
  end.

(** [validateRequiredFields(requiredFields)]: [body] is [req.body]. *)
Definition validateRequiredFields (requiredFields : list string)
  (body : obj) : verdict :=
  let missingFields := filter (fun field => negb (has field body))
                              requiredFields in
  if (0 <? Z.of_nat (List.length missingFields))
  then Reject (mkResponse 400
                 [("error", VStr "Campos requeridos faltantes");
                  ("details",
                   VStr ("Los siguientes campos son requeridos: "
                         ++ join ", " missingFields))])
  else Pass.

(** [validateBodyNotEmpty]: [body] is [req.body]. *)
Definition validateBodyNotEmpty (body : obj) : verdict :=
  if Z.of_nat (List.length (keys body)) =? 0
  then Reject (mkResponse 400
                 [("error", VStr "Cuerpo de la solicitud vacío");
                  ("details",
                   VStr "Se esperaba un cuerpo de solicitud con datos")])
  else Pass.

End Validation.

(* ================================================================== *)
(** * Vocabulary of the further properties, and sample requests *)
(* ================================================================== *)

(** A key [ref.update] takes as the name of one top-level field: not
    empty, and free of the characters of a field path. *)
Definition plain_key (k : string) : bool :=
  negb (String.eqb k "")
  && forallb (fun c => negb (existsb (Ascii.eqb c)
                               ["."; "*"; "~"; "/"; "["; "]"]%char))
             (list_ascii_of_string k).

(** A value the store keeps as it is given: no [undefined] in it. *)
Fixpoint defined (v : value) : bool :=
  match v with
  | VUndef => false
  | VObj fs => forallb (fun kv => defined (snd kv)) fs
  | _ => true
  end.

(** An update made of plain field names and defined values. *)
Definition plain_update (o : obj) : Prop :=
  forall k v, In (k, v) o -> plain_key k = true /\ defined v = true.

(** The machine codes and statuses [isAuthenticated] answers with. *)
Definition auth_codes : list string :=
  ["MISSING_AUTH_TOKEN"; "EMPTY_AUTH_TOKEN"; "TOKEN_EXPIRED"; "INVALID_TOKEN";
   "USER_FETCH_ERROR"; "USER_NOT_FOUND"; "ACCOUNT_INACTIVE"; "AUTH_ERROR"].

Definition auth_statuses : list Z := [400; 401; 403; 404; 500].

(** No space in a string. *)
Definition spaceless (s : string) : bool :=
  forallb (fun c => negb (Ascii.eqb c " ")) (list_ascii_of_string s).

(** An identity provider whose sessions have all expired, and one that is
    unreachable. *)
Definition all_expired (_ : string) : outcome decodedToken :=
  Throw (mkError (Some "auth/id-token-expired") "Firebase ID token has expired").

Definition unreachable (_ : string) : outcome decodedToken :=
  Throw (mkError (Some "app/network-error") "connect ETIMEDOUT").

Definition E_expired : env :=
  mkEnv 1700000000000 "00" all_expired no_fault whole_collection None.

Definition E_unreachable (mode : option string) : env :=
  mkEnv 1700000000000 "00" unreachable no_fault whole_collection mode.

Definition store_down (o : op) : option error :=
  match o with
  | OpDocGet | OpDocUpdate | OpQuery | OpSearch =>
      Some (mkError (Some "unavailable") "14 UNAVAILABLE: firestore")
  | _ => None
  end.

Definition E_store_down : env :=
  mkEnv 1700000000000 "00" one_session store_down whole_collection None.

Definition provider_down (o : op) : option error :=
  match o with
  | OpGetUserByEmail | OpAuthGetUser | OpAuthUpdateUser =>
      Some (mkError (Some "app/network-error") "connect ETIMEDOUT")
  | _ => None
  end.

Definition E_provider_down : env :=
  mkEnv 1700000000000 "00" one_session provider_down whole_collection None.

(** Bob, an administrator, next to Alice. *)
Definition bob_profile : obj :=
  [("uid", VStr "u9"); ("email", VStr "root@clinic.example");
   ("role", VStr "admin"); ("status", VStr "active")].

Definition w_clinic : world :=
  mkWorld [("u1", issued_profile); ("u9", bob_profile)]
          [("u1", alice_account)] [].

(* ================================================================== *)
(** * Objects: reading after writing *)
(* ================================================================== *)

Section ObjectLemmas.

Lemma lookup_set_same (k : string) (v : value) (o : obj) :
  lookup k (set k v o) = Some v.
Proof.
  induction o as [|[k' v'] o IH]; simpl.
  - now rewrite String.eqb_refl.
  - destruct (String.eqb k k') eqn:Hk; simpl; rewrite ?String.eqb_refl, ?Hk; auto.
Qed.

Lemma lookup_set_other (k k' : string) (v : value) (o : obj) :
  k <> k' -> lookup k (set k' v o) = lookup k o.
Proof.
  intros Hne. apply String.eqb_neq in Hne.
  induction o as [|[k0 v0] o IH]; simpl.
  - now rewrite Hne.
  - destruct (String.eqb k' k0) eqn:Hk; simpl.
    + apply String.eqb_eq in Hk. subst k0. now rewrite Hne.
    + now rewrite IH.
Qed.

Lemma lookup_set (k k' : string) (v : value) (o : obj) :
  lookup k (set k' v o) = if String.eqb k k' then Some v else lookup k o.
Proof.
  destruct (String.eqb k k') eqn:Hk.
  - apply String.eqb_eq in Hk. subst. apply lookup_set_same.
  - apply String.eqb_neq in Hk. now apply lookup_set_other.
Qed.

Lemma lookup_assign (e : obj) (ks : list string) (k : string) (b : obj) :
  lookup k (fold_left (fun acc k0 => set k0 (prop k0 e) acc) ks b)
  = if existsb (String.eqb k) ks then Some (prop k e) else lookup k b.
Proof.
  revert b. induction ks as [|k0 ks IH]; intros b; simpl; [reflexivity|].
  rewrite IH, lookup_set.
  destruct (String.eqb k k0) eqn:Hk; simpl.
  - apply String.eqb_eq in Hk. subst k0. now destruct (existsb _ ks).
  - reflexivity.
Qed.

Lemma existsb_keys (k : string) (o : obj) :
  existsb (String.eqb k) (keys o)
  = match lookup k o with Some _ => true | None => false end.
Proof.
  induction o as [|[k' v'] o IH]; simpl; [reflexivity|].
  destruct (String.eqb k k'); simpl; auto.
Qed.

(** Reading a spread: the later object wins on every key it has. *)
Lemma lookup_spread (k : string) (base ext : obj) :
  lookup k (spread base ext)
  = match lookup k ext with
    | Some v => Some v
    | None => lookup k base
    end.
Proof.
  unfold spread. rewrite lookup_assign, existsb_keys. unfold prop.
  now destruct (lookup k ext).
Qed.

Lemma prop_spread (k : string) (base ext : obj) :
  prop k (spread base ext)
  = match lookup k ext with
    | Some v => v
    | None => prop k base
    end.
Proof.
  unfold prop at 1. rewrite lookup_spread. unfold prop.
  now destruct (lookup k ext).
Qed.

(** Reading a rest object: the named keys are gone, the others untouched. *)
Lemma lookup_omit (k : string) (ks : list string) (o : obj) :
  lookup k (omit ks o)
  = if existsb (String.eqb k) ks then None else lookup k o.
Proof.
  induction o as [|[k' v'] o IH]; simpl.
  - now destruct (existsb _ ks).
  - destruct (existsb (String.eqb k') ks) eqn:Hin; simpl.
    + rewrite IH. destruct (String.eqb k k') eqn:Hk; [|reflexivity].
      apply String.eqb_eq in Hk. subst k'. now rewrite Hin.
    + rewrite IH. destruct (String.eqb k k') eqn:Hk; [|reflexivity].
      apply String.eqb_eq in Hk. subst k'. now rewrite Hin.
Qed.

Lemma value_eqb_str (s : string) (v : value) :
  value_eqb v (VStr s) = true <-> v = VStr s.
Proof.
  destruct v; simpl; split; intros H; try discriminate.
  - apply String.eqb_eq in H. now subst.
  - injection H as ->. apply String.eqb_refl.
Qed.

End ObjectLemmas.

(* ================================================================== *)
(** * Session resolver: [isAuthenticated] *)
(* ================================================================== *)

Import Middleware.

Lemma strict_eq_str (v : value) (s : string) :
  strict_eq v (VStr s) = true <-> v = VStr s.
Proof.
  destruct v; simpl; split; intros H; try discriminate.
  - apply String.eqb_eq in H. now subst.
  - injection H as ->. apply String.eqb_refl.
Qed.

Lemma startsWith_truthy (p : ascii) (p' s : string) :
  startsWith (String p p') s = true -> truthy (VStr s) = true.
Proof. destruct s; simpl; [discriminate | reflexivity]. Qed.

(** Past the header checks, with a token the provider accepts and a profile
    the store returns, the middleware is decided by the profile's status. *)
Lemma isAuthenticated_resolved (E : env) (w : world) (h tok : string)
  (d : decodedToken) (data : obj) :
  startsWith "Bearer " h = true ->
  index (split " " h) 1 = VStr tok ->
  tok <> "" ->
  verifyIdToken E tok = Ok d ->
  fault E OpDocGet = None ->
  find_doc (uid d) (users w) = Some data ->
  isAuthenticated E (Some h) w
  = (let user := spread [("id", VStr (uid d))] data in
     if negb (strict_eq (prop "status" user) (VStr "active"))
     then json 403 (ACCOUNT_INACTIVE user)
     else Next (Some (principal d user)), w).
Proof.
  intros Hpre Htok Hne Hver Hflt Hdoc.
  assert (Ht : truthy (VStr tok) = true).
  { simpl. apply String.eqb_neq in Hne. now rewrite Hne. }
  unfold isAuthenticated.
  rewrite (startsWith_truthy _ _ _ Hpre), Hpre, Htok, Ht.
  cbn [negb orb].
  cbv beta iota delta [handler bind try_catch ret throw auth_verifyIdToken
                       doc_get UserModel.getUserById].
  rewrite Hver. cbv beta iota. rewrite (uid_given d), Hflt, Hdoc. cbv beta iota.
  destruct (negb _); reflexivity.
Qed.

(** What a request that reached [next()] went through. *)
Lemma isAuthenticated_next (E : env) (h : option string) (w w' : world)
  (u : option obj) :
  isAuthenticated E h w = (Next u, w') ->
  exists s tok d data,
    h = Some s
    /\ index (split " " s) 1 = VStr tok
    /\ verifyIdToken E tok = Ok d
    /\ find_doc (uid d) (users w) = Some data
    /\ strict_eq (prop "status" (spread [("id", VStr (uid d))] data))
                 (VStr "active") = true
    /\ u = Some (principal d (spread [("id", VStr (uid d))] data))
    /\ w' = w.
Proof.
  unfold isAuthenticated, handler.
  destruct h as [s|]; [|discriminate].
  destruct (negb (truthy (VStr s)) || negb (startsWith "Bearer " s));
    [discriminate|].
  assert (Hidx : forall tok, nth_error (split " " s) 1 = Some tok ->
                             index (split " " s) 1 = VStr tok).
  { intros tok Hn. unfold index. now rewrite Hn. }
  unfold index at 1 2.
  destruct (nth_error (split " " s) 1) as [tok|] eqn:Htok; [|discriminate].
  specialize (Hidx tok eq_refl).
  destruct (negb (truthy (VStr tok))); [discriminate|].
  unfold bind, try_catch, auth_verifyIdToken, ret.
  destruct (verifyIdToken E tok) as [d|e] eqn:Hver.
  - unfold UserModel.getUserById, try_catch, bind, doc_get, ret, throw.
    rewrite (uid_given d).
    destruct (fault E OpDocGet); [discriminate|].
    destruct (find_doc (uid d) (users w)) as [data|] eqn:Hdoc; [|discriminate].
    destruct (strict_eq _ _) eqn:Hst; simpl; [|discriminate].
    intros H. injection H as <- <-.
    exists s, tok, d, data. repeat split; auto.
  - unfold throw.
    destruct (code_is e "auth/id-token-expired"); [discriminate|].
    destruct (code_is e "auth/argument-error" || code_is e "auth/invalid-id-token");
      discriminate.
Qed.

(** C9.  A request to a protected route with no [Authorization] header, or
    with a header that does not start with ['Bearer '], is answered 401 with
    code [MISSING_AUTH_TOKEN]; the header ['Bearer '] with nothing after it
    is answered 401 with code [EMPTY_AUTH_TOKEN].  Nothing outside is
    touched in either case. *)
Theorem C9_missing_or_empty_bearer (E : env) (w : world) :
  (answers (fst (isAuthenticated E None w)) 401 "MISSING_AUTH_TOKEN"
   /\ snd (isAuthenticated E None w) = w)
  /\ (forall s : string,
        startsWith "Bearer " s = false ->
        answers (fst (isAuthenticated E (Some s) w)) 401 "MISSING_AUTH_TOKEN"
        /\ snd (isAuthenticated E (Some s) w) = w)
  /\ (answers (fst (isAuthenticated E (Some "Bearer ") w)) 401 "EMPTY_AUTH_TOKEN"
      /\ snd (isAuthenticated E (Some "Bearer ") w) = w).
Proof.
  split; [|split].
  - split; [|reflexivity]. exists MISSING_AUTH_TOKEN. split; reflexivity.
  - intros s Hs. unfold isAuthenticated. rewrite Hs.
    rewrite orb_true_r. split; [|reflexivity].
    exists MISSING_AUTH_TOKEN. split; reflexivity.
  - split; [|reflexivity]. exists EMPTY_AUTH_TOKEN. split; reflexivity.
Qed.

Lemma C9_witness :
  startsWith "Bearer " "Basic YWxpY2U6c2VjcmV0" = false
  /\ answers (fst (isAuthenticated E_sample (Some "Basic YWxpY2U6c2VjcmV0") w_alice))
             401 "MISSING_AUTH_TOKEN".
Proof.
  split; [reflexivity|].
  apply (proj1 (proj2 (C9_missing_or_empty_bearer E_sample w_alice))
           "Basic YWxpY2U6c2VjcmV0").
  reflexivity.
Defined.

(** C2, as the code has it.  When the identity provider rejects the bearer
    token with [auth/argument-error] or [auth/invalid-id-token], the answer
    carries machine code [INVALID_TOKEN] under HTTP status 400. *)
Theorem C2_invalid_token_is_400 (E : env) (w : world) (h tok : string)
  (e : error) :
  startsWith "Bearer " h = true ->
  index (split " " h) 1 = VStr tok ->
  tok <> "" ->
  verifyIdToken E tok = Throw e ->
  err_code e = Some "auth/argument-error"
  \/ err_code e = Some "auth/invalid-id-token" ->
  answers (fst (isAuthenticated E (Some h) w)) 400 "INVALID_TOKEN"
  /\ snd (isAuthenticated E (Some h) w) = w.
Proof.
  intros Hpre Htok Hne Hver Hcode.
  assert (Ht : truthy (VStr tok) = true).
  { simpl. apply String.eqb_neq in Hne. now rewrite Hne. }
  assert (Hrun : isAuthenticated E (Some h) w = (json 400 INVALID_TOKEN, w)).
  { unfold isAuthenticated.
    rewrite (startsWith_truthy _ _ _ Hpre), Hpre, Htok, Ht.
    cbn [negb orb].
    cbv beta iota delta [handler bind try_catch ret throw auth_verifyIdToken].
    rewrite Hver. cbv beta iota. unfold code_is.
    destruct Hcode as [Hc|Hc]; rewrite Hc; reflexivity. }
  rewrite Hrun. split; [|reflexivity].
  exists INVALID_TOKEN. split; reflexivity.
Qed.

Lemma C2_witness :
  verifyIdToken E_sample "garbage"
  = Throw (mkError (Some "auth/argument-error")
                   "Decoding Firebase ID token failed")
  /\ answers (fst (isAuthenticated E_sample (Some "Bearer garbage") w_alice))
             400 "INVALID_TOKEN".
Proof.
  split; [reflexivity|].
  apply (C2_invalid_token_is_400 E_sample w_alice "Bearer garbage" "garbage"
           (mkError (Some "auth/argument-error")
                    "Decoding Firebase ID token failed")).
  - reflexivity.
  - reflexivity.
  - discriminate.
  - reflexivity.
  - left. reflexivity.
Defined.

(** C2 as stated fails: a token the provider reports as malformed is
    answered with status 400, not 401. *)
Lemma C2_counterexample :
  verifyIdToken E_sample "garbage"
  = Throw (mkError (Some "auth/argument-error")
                   "Decoding Firebase ID token failed")
  /\ fst (isAuthenticated E_sample (Some "Bearer garbage") w_alice)
     = Respond (mkResponse 400 INVALID_TOKEN)
  /\ ~ answers (fst (isAuthenticated E_sample (Some "Bearer garbage") w_alice))
               401 "INVALID_TOKEN".
Proof.
  split; [reflexivity|]. split; [reflexivity|].
  intros [b [H _]]. vm_compute in H. discriminate H.
Qed.

(** C5.  When the token verifies and the profile exists with a status other
    than ['active'], the answer is 403 with code [ACCOUNT_INACTIVE], its
    payload carries the profile's status, and [next()] is not called. *)
Theorem C5_inactive_account_is_403 (E : env) (w : world) (h tok : string)
  (d : decodedToken) (data : obj) :
  startsWith "Bearer " h = true ->
  index (split " " h) 1 = VStr tok ->
  tok <> "" ->
  verifyIdToken E tok = Ok d ->
  fault E OpDocGet = None ->
  find_doc (uid d) (users w) = Some data ->
  prop "status" data <> VStr "active" ->
  (exists b,
      isAuthenticated E (Some h) w = (Respond (mkResponse 403 b), w)
      /\ prop "code" b = VStr "ACCOUNT_INACTIVE"
      /\ lookup "status" b = Some (prop "status" data))
  /\ forall u, fst (isAuthenticated E (Some h) w) <> Next u.
Proof.
  intros Hpre Htok Hne Hver Hflt Hdoc Hst.
  rewrite (isAuthenticated_resolved E w h tok d data Hpre Htok Hne Hver Hflt Hdoc).
  cbv zeta.
  assert (Hs : prop "status" (spread [("id", VStr (uid d))] data)
               = prop "status" data).
  { rewrite prop_spread. unfold prop. now destruct (lookup "status" data). }
  assert (Hneq : strict_eq (prop "status" (spread [("id", VStr (uid d))] data))
                           (VStr "active") = false).
  { rewrite Hs. destruct (strict_eq _ _) eqn:Heq; [|reflexivity].
    apply strict_eq_str in Heq. contradiction. }
  rewrite Hneq. cbn [negb]. split.
  - eexists. split; [reflexivity|]. split; [reflexivity|].
    cbn. now rewrite Hs.
  - intros u. cbn. discriminate.
Qed.

Lemma C5_witness :
  prop "status" (set "status" (VStr "suspended") alice_profile) <> VStr "active"
  /\ exists b,
      isAuthenticated E_sample (Some "Bearer tok-alice") w_suspended
      = (Respond (mkResponse 403 b), w_suspended)
      /\ prop "code" b = VStr "ACCOUNT_INACTIVE"
      /\ lookup "status" b = Some (VStr "suspended").
Proof.
  split; [discriminate|].
  apply (C5_inactive_account_is_403 E_sample w_suspended "Bearer tok-alice"
           "tok-alice" alice_claims
           (set "status" (VStr "suspended") alice_profile)).
  - reflexivity.
  - reflexivity.
  - discriminate.
  - reflexivity.
  - reflexivity.
  - reflexivity.
  - discriminate.
Defined.

(** C1, as the code has it.  On every request that reaches [next()], the
    Principal is the stored profile laid over the token's claims: a key the
    profile document has, [id], [email] and [emailVerified] included, reads
    as the profile has it, and the token's [id], [email] and [emailVerified]
    are read only where the profile has no such key. *)
Theorem C1_principal_profile_over_claims (E : env) (h : option string)
  (w w' : world) (u : option obj) :
  isAuthenticated E h w = (Next u, w') ->
  exists tok d data p,
    verifyIdToken E tok = Ok d
    /\ find_doc (uid d) (users w) = Some data
    /\ u = Some p
    /\ forall k,
         lookup k p = match lookup k data with
                      | Some v => Some v
                      | None => lookup k (token_claims d)
                      end.
Proof.
  intros Hrun.
  destruct (isAuthenticated_next E h w w' u Hrun)
    as (s & tok & d & data & _ & _ & Hver & Hdoc & _ & Hu & _).
  exists tok, d, data, (principal d (spread [("id", VStr (uid d))] data)).
  repeat split; auto.
  intros k. unfold principal. rewrite !lookup_spread.
  destruct (lookup k data) as [v|]; [reflexivity|].
  unfold token_claims. simpl.
  destruct (String.eqb k "id"); reflexivity.
Qed.

Lemma C1_witness :
  exists tok d data p,
    verifyIdToken E_sample tok = Ok d
    /\ find_doc (uid d) (users w_alice) = Some data
    /\ Some (principal alice_claims (spread [("id", VStr "u1")] alice_profile))
       = Some p
    /\ forall k,
         lookup k p = match lookup k data with
                      | Some v => Some v
                      | None => lookup k (token_claims d)
                      end.
Proof.
  apply (C1_principal_profile_over_claims E_sample (Some "Bearer tok-alice")
           w_alice w_alice).
  reflexivity.
Defined.

(** C1 as stated fails: the provider verified the new address, the profile
    still holds the old one unverified, and the Principal carries the
    profile's copy of both fields. *)
Lemma C1_counterexample :
  exists p,
    isAuthenticated E_sample (Some "Bearer tok-alice") w_alice
    = (Next (Some p), w_alice)
    /\ verifyIdToken E_sample "tok-alice" = Ok alice_claims
    /\ prop "email" p = VStr "alice@old.example"
    /\ prop "email" p <> email alice_claims
    /\ prop "emailVerified" p = VBool false
    /\ prop "emailVerified" p <> email_verified alice_claims.
Proof.
  eexists. split; [reflexivity|].
  repeat split; try reflexivity; vm_compute; discriminate.
Qed.

(* ================================================================== *)
(** * Access policy gate: [isOwnerOrAdmin] *)
(* ================================================================== *)

(** The gate on a principal that is not an administrator. *)
Lemma isOwnerOrAdmin_other (idParam : string) (u : obj) (ps : params) :
  prop "role" u <> VStr "admin" ->
  isOwnerOrAdmin idParam (Some u) ps
  = if identical (param idParam ps) (prop "id" u) then Next (Some u)
    else Respond (mkResponse 403 ownership_denied).
Proof.
  intros Hrole. unfold isOwnerOrAdmin.
  destruct (strict_eq (prop "role" u) (VStr "admin")) eqn:Hadm.
  { apply strict_eq_str in Hadm. contradiction. }
  cbv zeta. now destruct (identical _ _).
Qed.

Lemma strict_eq_str_l (s : string) (v : value) :
  strict_eq (VStr s) v = true <-> v = VStr s.
Proof.
  destruct v; cbn [strict_eq]; split; intros H; try discriminate.
  - apply String.eqb_eq in H. now subst.
  - injection H as ->. apply String.eqb_refl.
Qed.

Lemma strict_eq_undef_l (v : value) :
  strict_eq VUndef v = true <-> v = VUndef.
Proof. destruct v; cbn [strict_eq]; split; intros H; try discriminate; auto. Qed.

(** C8.  In the self-or-admin gate a principal whose role is ['admin']
    passes whatever the resource id is.  Any other principal passes exactly
    when what [req.params[idParam]] reads is identical to the principal's
    [id], and is answered 403 with the ownership denial otherwise: with a
    route parameter of that name, exactly when the principal's id is that
    string; with none, never for a name that objects inherit, and for any
    other name only when the principal has no id either. *)
Theorem C8_self_or_admin (idParam : string) (u : obj) (ps : params) :
  (prop "role" u = VStr "admin" ->
   isOwnerOrAdmin idParam (Some u) ps = Next (Some u))
  /\ (prop "role" u <> VStr "admin" ->
      (forall r,
          own idParam ps = Some r ->
          (isOwnerOrAdmin idParam (Some u) ps = Next (Some u)
           <-> prop "id" u = VStr r)
          /\ (prop "id" u <> VStr r ->
              isOwnerOrAdmin idParam (Some u) ps
              = Respond (mkResponse 403 ownership_denied)))
      /\ (own idParam ps = None ->
          In idParam inherited ->
          isOwnerOrAdmin idParam (Some u) ps
          = Respond (mkResponse 403 ownership_denied))
      /\ (own idParam ps = None ->
          ~ In idParam inherited ->
          (isOwnerOrAdmin idParam (Some u) ps = Next (Some u)
           <-> prop "id" u = VUndef)
          /\ (prop "id" u <> VUndef ->
              isOwnerOrAdmin idParam (Some u) ps
              = Respond (mkResponse 403 ownership_denied)))).
Proof.
  split.
  - intros Hrole. unfold isOwnerOrAdmin.
    apply strict_eq_str in Hrole. now rewrite Hrole.
  - intros Hrole. rewrite (isOwnerOrAdmin_other idParam u ps Hrole).
    unfold param. split; [|split].
    + intros r Hr. rewrite Hr. cbn [identical].
      destruct (strict_eq (VStr r) (prop "id" u)) eqn:Hid.
      * apply strict_eq_str_l in Hid. split; [split; auto|].
        intros Hne. contradiction.
      * split; [|reflexivity]. split; [discriminate|].
        intros Heq. apply strict_eq_str_l in Heq. congruence.
    + intros Hn Hin. rewrite Hn.
      assert (Hex : existsb (String.eqb idParam) inherited = true).
      { apply existsb_exists. exists idParam. split; [exact Hin|].
        apply String.eqb_refl. }
      now rewrite Hex.
    + intros Hn Hin. rewrite Hn.
      assert (Hex : existsb (String.eqb idParam) inherited = false).
      { destruct (existsb (String.eqb idParam) inherited) eqn:He; [|reflexivity].
        apply existsb_exists in He. destruct He as [x [Hx Heq]].
        apply String.eqb_eq in Heq. subst x. contradiction. }
      rewrite Hex. cbn [identical].
      destruct (strict_eq VUndef (prop "id" u)) eqn:Hid.
      * apply strict_eq_undef_l in Hid. split; [split; auto|].
        intros Hne. contradiction.
      * split; [|reflexivity]. split; [discriminate|].
        intros Heq. apply strict_eq_undef_l in Heq. congruence.
Qed.

Lemma C8_witness :
  (prop "role" admin_principal = VStr "admin"
   /\ isOwnerOrAdmin "id" (Some admin_principal) [("id", "u1")]
      = Next (Some admin_principal))
  /\ (prop "role" alice_principal <> VStr "admin"
      /\ own "id" [("id", "u1")] = Some "u1"
      /\ prop "id" alice_principal = VStr "u1"
      /\ isOwnerOrAdmin "id" (Some alice_principal) [("id", "u1")]
         = Next (Some alice_principal))
  /\ (own "id" [("id", "u2")] = Some "u2"
      /\ prop "id" alice_principal <> VStr "u2"
      /\ isOwnerOrAdmin "id" (Some alice_principal) [("id", "u2")]
         = Respond (mkResponse 403 ownership_denied))
  /\ (own "constructor" [] = None
      /\ In "constructor" inherited
      /\ isOwnerOrAdmin "constructor" (Some [("role", VStr "patient")]) []
         = Respond (mkResponse 403 ownership_denied)).
Proof.
  assert (Hrole : prop "role" alice_principal <> VStr "admin")
    by (vm_compute; discriminate).
  split; [|split; [|split]].
  - split; [reflexivity|].
    apply (proj1 (C8_self_or_admin "id" admin_principal [("id", "u1")])).
    reflexivity.
  - split; [exact Hrole|]. split; [reflexivity|]. split; [reflexivity|].
    apply (proj1 (proj1 (proj2 (C8_self_or_admin "id" alice_principal
                                  [("id", "u1")]) Hrole) "u1" eq_refl)).
    reflexivity.
  - split; [reflexivity|].
    assert (Hid : prop "id" alice_principal <> VStr "u2")
      by (vm_compute; discriminate).
    split; [exact Hid|].
    exact (proj2 (proj1 (proj2 (C8_self_or_admin "id" alice_principal
                                  [("id", "u2")]) Hrole) "u2" eq_refl) Hid).
  - split; [reflexivity|].
    assert (Hin : In "constructor" inherited) by (cbn; auto).
    split; [exact Hin|].
    apply (proj1 (proj2 (proj2 (C8_self_or_admin "constructor"
                                  [("role", VStr "patient")] [])
                           ltac:(cbn; discriminate)))).
    + reflexivity.
    + exact Hin.
Defined.

(* ================================================================== *)
(** * Read endpoints: [getUserById] and [searchUsers] *)
(* ================================================================== *)

(** A successful [getUserById] answers with the stored document laid over
    the provider's fields. *)
Lemma getUserById_success (E : env) (user : obj) (id : string)
  (w w' : world) (r : response) :
  UserController.getUserById E user id w = (r, w') ->
  status r = 200 ->
  exists data base,
    find_doc id (users w) = Some data
    /\ body r = spread base (spread [("id", VStr id)] data).
Proof.
  unfold UserController.getUserById.
  cbv beta iota zeta delta [handler bind try_catch ret throw
                            UserModel.getUserById doc_get auth_getUser].
  destruct (negb _ && negb _).
  { intros H Hs. injection H as <- <-. discriminate Hs. }
  destruct (String.eqb id "").
  { intros H Hs. injection H as <- <-. discriminate Hs. }
  destruct (fault E OpDocGet).
  { intros H Hs. injection H as <- <-. discriminate Hs. }
  destruct (find_doc id (users w)) as [data|] eqn:Hdoc.
  2:{ intros H Hs. injection H as <- <-. discriminate Hs. }
  destruct (fault E OpAuthGetUser) as [e|].
  - destruct (code_is e "auth/user-not-found").
    + intros H _. injection H as <- <-. eexists data, _. split; reflexivity.
    + intros H Hs. injection H as <- <-. discriminate Hs.
  - destruct (find_account id (accounts w)) as [a|].
    + intros H _. injection H as <- <-. eexists data, _. split; reflexivity.
    + intros H _. injection H as <- <-. eexists data, _. split; reflexivity.
Qed.

(** C10.  The success response of [getUserById] carries every field of the
    stored profile as stored, the reset and verification tokens and their
    expiries among them; [searchUsers] returns each selected document with
    only the keys [password] and [tokens] removed.  Live security-token
    fields thus reach the caller of both read paths. *)
Theorem C10_read_paths_return_token_fields :
  (forall (E : env) (user : obj) (id : string) (w w' : world) (r : response),
      UserController.getUserById E user id w = (r, w') ->
      status r = 200 ->
      exists data,
        find_doc id (users w) = Some data
        /\ forall k v, lookup k data = Some v -> lookup k (body r) = Some v)
  /\ (forall (E : env) (filters : obj) (limit : Z) (startAfter : value)
             (w : world),
         fault E OpSearch = None ->
         UserModel.searchUsers E filters limit startAfter w
         = (Ok (map UserModel.safeUser
                    (firestoreSearch E filters limit startAfter (users w))), w))
  /\ (forall (d : doc) (k : string),
         lookup k (UserModel.safeUser d)
         = if String.eqb k "password" || String.eqb k "tokens" then None
           else match lookup k (snd d) with
                | Some v => Some v
                | None => if String.eqb k "id" then Some (VStr (fst d)) else None
                end).
Proof.
  split; [|split].
  - intros E user id w w' r Hrun Hs.
    destruct (getUserById_success E user id w w' r Hrun Hs)
      as (data & base & Hdoc & Hbody).
    exists data. split; [exact Hdoc|].
    intros k v Hk. rewrite Hbody, !lookup_spread, Hk. reflexivity.
  - intros E filters limit startAfter w Hf.
    unfold UserModel.searchUsers, try_catch. now rewrite Hf.
  - intros [id data] k. unfold UserModel.safeUser.
    rewrite lookup_spread, lookup_omit. cbn [fst snd existsb lookup].
    rewrite orb_false_r.
    destruct (String.eqb k "password" || String.eqb k "tokens") eqn:Hsens.
    + destruct (String.eqb k "id") eqn:Hid; [|reflexivity].
      apply String.eqb_eq in Hid. subst k. discriminate Hsens.
    + destruct (lookup k data); reflexivity.
Qed.

Lemma C10_witness :
  (status (fst (UserController.getUserById E_sample alice_principal "u1" w_issued))
   = 200
   /\ exists data,
       find_doc "u1" (users w_issued) = Some data
       /\ forall k v,
            lookup k data = Some v ->
            lookup k (body (fst (UserController.getUserById
                                   E_sample alice_principal "u1" w_issued)))
            = Some v)
  /\ UserModel.searchUsers E_sample [("status", VStr "active")] 10 VNull w_issued
     = (Ok (map UserModel.safeUser
                (firestoreSearch E_sample [("status", VStr "active")] 10 VNull
                   (users w_issued))), w_issued)
  /\ lookup "resetToken" (UserModel.safeUser ("u1", issued_profile))
     = Some (VStr "r-4be1").
Proof.
  split; [|split].
  - split; [reflexivity|].
    apply (proj1 C10_read_paths_return_token_fields
             E_sample alice_principal "u1" w_issued w_issued).
    + reflexivity.
    + reflexivity.
  - apply (proj1 (proj2 C10_read_paths_return_token_fields)
             E_sample [("status", VStr "active")] 10 VNull w_issued).
    reflexivity.
  - rewrite (proj2 (proj2 C10_read_paths_return_token_fields)
               ("u1", issued_profile) "resetToken").
    reflexivity.
Defined.

(* ================================================================== *)
(** * Security-token workflow *)
(* ================================================================== *)

Import UserController.

Lemma auth_getUserByEmail_world (E : env) (em : value) (w : world) :
  snd (auth_getUserByEmail E em w) = w.
Proof.
  unfold auth_getUserByEmail.
  destruct (fault E OpGetUserByEmail); [reflexivity|].
  destruct em; try reflexivity.
  destruct (find _ (accounts w)); reflexivity.
Qed.

(** [requestPasswordReset], step by step: the lookup of the email decides
    the answer, and a request for a known email gets no further than the
    first use of [db]. *)
Lemma requestPasswordReset_run (E : env) (body : obj) (w : world) :
  requestPasswordReset E body w
  = (match fst (auth_getUserByEmail E (prop "email" body) w) with
     | Ok _ =>
         json 500 [("error", VStr "Error processing password reset request")]
     | Throw _ => json 200 generic_reset_message
     end, w).
Proof.
  pose proof (auth_getUserByEmail_world E (prop "email" body) w) as Hw.
  unfold requestPasswordReset. cbv zeta.
  unfold handler, bind at 1, try_catch at 1, bind at 1, ret.
  destruct (auth_getUserByEmail E (prop "email" body) w) as [[[u record]|e] w0];
    cbn [fst snd] in Hw |- *; subst w0; reflexivity.
Qed.

(** [resetPassword], step by step: past the check of the body it gets no
    further than the first use of [db]. *)
Lemma resetPassword_run (E : env) (body : obj) (w : world) :
  resetPassword E body w
  = (if negb (truthy (prop "token" body))
        || negb (truthy (prop "newPassword" body))
     then json 400 [("error", VStr "Token and new password are required")]
     else json 500 [("error", VStr "Error resetting password")], w).
Proof.
  unfold resetPassword. cbv zeta.
  destruct (negb (truthy (prop "token" body))
            || negb (truthy (prop "newPassword" body))); reflexivity.
Qed.

(** [verifyEmail], likewise. *)
Lemma verifyEmail_run (E : env) (query : obj) (w : world) :
  verifyEmail E query w
  = (if negb (truthy (prop "token" query))
     then json 400 [("error", VStr "Verification token is required")]
     else json 500 [("error", VStr "Error verifying email")], w).
Proof.
  unfold verifyEmail. cbv zeta.
  destruct (negb (truthy (prop "token" query))); reflexivity.
Qed.


(** C6, on the code.  A reset token and a verification token that equal
    the stored ones are answered 500 at every time of the clock: one
    millisecond before the stored expiry, where the claim has them
    accepted, as well as at the expiry and after it, where the claim has
    them rejected as invalid. *)
Theorem C6_live_token_is_not_accepted (n : Z) :
  where_gt "resetTokenExpiry" 1700003599999 ("u1", issued_profile) = true
  /\ resetPassword (E_at n)
       [("token", VStr "r-4be1"); ("newPassword", VStr "N3w-Secret!")] w_issued
     = (json 500 [("error", VStr "Error resetting password")], w_issued)
  /\ verifyEmail (E_at n) [("token", VStr "v-77c0")] w_issued
     = (json 500 [("error", VStr "Error verifying email")], w_issued).
Proof. repeat split; reflexivity. Qed.


(** C4, on the code.  For an email the identity provider has an account
    for, [requestPasswordReset] answers 500 with its processing error; for
    an email it has none for, 200 with the generic message.  Neither
    request stores a token or sends an email. *)
Theorem C4_known_email_is_told_apart :
  requestPasswordReset E_sample [("email", VStr "alice@new.example")] w_alice
  = (json 500 [("error", VStr "Error processing password reset request")],
     w_alice)
  /\ requestPasswordReset E_sample [("email", VStr "nobody@example.com")] w_alice
     = (json 200 generic_reset_message, w_alice).
Proof. split; reflexivity. Qed.

(* ================================================================== *)
(** * Further properties of the session resolver *)
(* ================================================================== *)

(** What [isAuthenticated] depends on in the header. *)
Lemma isAuthenticated_header (E : env) (w : world) (h1 h2 : string) :
  startsWith "Bearer " h1 = true ->
  startsWith "Bearer " h2 = true ->
  index (split " " h1) 1 = index (split " " h2) 1 ->
  isAuthenticated E (Some h1) w = isAuthenticated E (Some h2) w.
Proof.
  intros H1 H2 Hi. unfold isAuthenticated.
  rewrite (startsWith_truthy _ _ _ H1), (startsWith_truthy _ _ _ H2).
  now rewrite H1, H2, Hi.
Qed.

(** Past the header checks, with a token the provider rejects. *)
Lemma isAuthenticated_token_rejected (E : env) (w : world) (h tok : string)
  (e : error) :
  startsWith "Bearer " h = true ->
  index (split " " h) 1 = VStr tok ->
  tok <> "" ->
  verifyIdToken E tok = Throw e ->
  isAuthenticated E (Some h) w
  = (if code_is e "auth/id-token-expired" then Middleware.json 401 TOKEN_EXPIRED
     else if code_is e "auth/argument-error"
             || code_is e "auth/invalid-id-token"
     then Middleware.json 400 INVALID_TOKEN
     else Middleware.json 500 (AUTH_ERROR E e), w).
Proof.
  intros Hpre Htok Hne Hver.
  assert (Ht : truthy (VStr tok) = true).
  { simpl. apply String.eqb_neq in Hne. now rewrite Hne. }
  unfold isAuthenticated.
  rewrite (startsWith_truthy _ _ _ Hpre), Hpre, Htok, Ht.
  cbn [negb orb].
  cbv beta iota delta [handler bind try_catch ret throw auth_verifyIdToken].
  rewrite Hver. cbv beta iota.
  destruct (code_is e "auth/id-token-expired"); [reflexivity|].
  destruct (code_is e "auth/argument-error" || code_is e "auth/invalid-id-token");
    reflexivity.
Qed.

(** Past the header checks, with a token the provider accepts. *)
Lemma isAuthenticated_token_accepted (E : env) (w : world) (h tok : string)
  (d : decodedToken) :
  startsWith "Bearer " h = true ->
  index (split " " h) 1 = VStr tok ->
  tok <> "" ->
  verifyIdToken E tok = Ok d ->
  isAuthenticated E (Some h) w
  = (match fault E OpDocGet with
     | Some _ => Middleware.json 500 USER_FETCH_ERROR
     | None =>
         match find_doc (uid d) (users w) with
         | None => Middleware.json 404 USER_NOT_FOUND
         | Some data =>
             let user := spread [("id", VStr (uid d))] data in
             if negb (strict_eq (prop "status" user) (VStr "active"))
             then Middleware.json 403 (ACCOUNT_INACTIVE user)
             else Next (Some (principal d user))
         end
     end, w).
Proof.
  intros Hpre Htok Hne Hver.
  destruct (fault E OpDocGet) as [e|] eqn:Hf.
  - assert (Ht : truthy (VStr tok) = true).
    { simpl. apply String.eqb_neq in Hne. now rewrite Hne. }
    unfold isAuthenticated.
    rewrite (startsWith_truthy _ _ _ Hpre), Hpre, Htok, Ht.
    cbn [negb orb].
    cbv beta iota delta [handler bind try_catch ret throw auth_verifyIdToken
                         doc_get UserModel.getUserById].
    rewrite Hver. cbv beta iota. now rewrite (uid_given d), Hf.
  - destruct (find_doc (uid d) (users w)) as [data|] eqn:Hdoc.
    + apply (isAuthenticated_resolved E w h tok d data); assumption.
    + assert (Ht : truthy (VStr tok) = true).
      { simpl. apply String.eqb_neq in Hne. now rewrite Hne. }
      unfold isAuthenticated.
      rewrite (startsWith_truthy _ _ _ Hpre), Hpre, Htok, Ht.
      cbn [negb orb].
      cbv beta iota delta [handler bind try_catch ret throw auth_verifyIdToken
                           doc_get UserModel.getUserById].
      rewrite Hver. cbv beta iota. now rewrite (uid_given d), Hf, Hdoc.
Qed.

(** The status the Principal carries is the profile's. *)
Lemma principal_field (d : decodedToken) (data : obj) (k : string) :
  k <> "id" -> k <> "email" -> k <> "emailVerified" ->
  prop k (principal d (spread [("id", VStr (uid d))] data)) = prop k data.
Proof.
  intros H1 H2 H3. unfold principal. rewrite prop_spread, lookup_spread.
  apply String.eqb_neq in H1, H2, H3.
  unfold prop. destruct (lookup k data); [reflexivity|].
  cbn. now rewrite H1, H2, H3.
Qed.

Ltac answered :=
  cbn; repeat split; auto 10;
  try (eexists; split; [reflexivity | cbn; auto 12]).

(** X1.  Whatever the header, the provider and the store do,
    [isAuthenticated] writes nothing; it either calls [next()] with a
    Principal whose status is ['active'], or answers with one of the
    statuses 400, 401, 403, 404, 500, [success: false] and one of its eight
    machine codes. *)
Theorem X1_isAuthenticated_reads_only (E : env) (h : option string)
  (w : world) :
  snd (isAuthenticated E h w) = w
  /\ match fst (isAuthenticated E h w) with
     | Next u => exists p, u = Some p /\ prop "status" p = VStr "active"
     | Respond r =>
         In (status r) auth_statuses
         /\ prop "success" (body r) = VBool false
         /\ exists c, prop "code" (body r) = VStr c /\ In c auth_codes
     end.
Proof.
  destruct h as [s|]; [|answered].
  destruct (startsWith "Bearer " s) eqn:Hpre.
  2:{ unfold isAuthenticated. rewrite Hpre, orb_true_r. answered. }
  destruct (index (split " " s) 1) as [| | | |tok| |] eqn:Htok;
    try (unfold index in Htok; destruct (nth_error _ _); discriminate);
    try solve [unfold isAuthenticated;
               rewrite (startsWith_truthy _ _ _ Hpre), Hpre, Htok; answered].
  destruct (String.eqb tok "") eqn:Hne.
  { apply String.eqb_eq in Hne. subst tok. unfold isAuthenticated.
    rewrite (startsWith_truthy _ _ _ Hpre), Hpre, Htok. answered. }
  apply String.eqb_neq in Hne.
  destruct (verifyIdToken E tok) as [d|e] eqn:Hver.
  - rewrite (isAuthenticated_token_accepted E w s tok d Hpre Htok Hne Hver).
    destruct (fault E OpDocGet); [answered|].
    destruct (find_doc (uid d) (users w)) as [data|]; [|answered].
    cbv zeta.
    destruct (strict_eq _ _) eqn:Hst; cbn [negb]; [|answered].
    split; [reflexivity|]. cbn [fst]. eexists. split; [reflexivity|].
    rewrite principal_field by discriminate.
    apply strict_eq_str in Hst.
    rewrite prop_spread in Hst. unfold prop in *.
    destruct (lookup "status" data); [exact Hst | discriminate Hst].
  - rewrite (isAuthenticated_token_rejected E w s tok e Hpre Htok Hne Hver).
    destruct (code_is e "auth/id-token-expired"); [answered|].
    destruct (code_is e "auth/argument-error" || code_is e "auth/invalid-id-token");
      answered.
Qed.

(** X2.  A bearer token the provider reports as expired
    ([auth/id-token-expired]) is answered 401 with code [TOKEN_EXPIRED]. *)
Theorem X2_expired_token_is_401 (E : env) (w : world) (h tok : string)
  (e : error) :
  startsWith "Bearer " h = true ->
  index (split " " h) 1 = VStr tok ->
  tok <> "" ->
  verifyIdToken E tok = Throw e ->
  err_code e = Some "auth/id-token-expired" ->
  answers (fst (isAuthenticated E (Some h) w)) 401 "TOKEN_EXPIRED".
Proof.
  intros Hpre Htok Hne Hver Hcode.
  rewrite (isAuthenticated_token_rejected E w h tok e Hpre Htok Hne Hver).
  unfold code_is. rewrite Hcode. cbn.
  exists TOKEN_EXPIRED. split; reflexivity.
Qed.

Lemma X2_witness :
  answers (fst (isAuthenticated E_expired (Some "Bearer tok-alice") w_alice))
          401 "TOKEN_EXPIRED".
Proof.
  apply (X2_expired_token_is_401 E_expired w_alice "Bearer tok-alice" "tok-alice"
           (mkError (Some "auth/id-token-expired") "Firebase ID token has expired")).
  - reflexivity.
  - reflexivity.
  - discriminate.
  - reflexivity.
  - reflexivity.
Defined.

(** X3.  Any other failure of token verification (a code other than
    expired, argument-error and invalid-id-token, or no code) is answered
    500 with code [AUTH_ERROR]; the answer's [details] is the error's message
    when [NODE_ENV] is ['development'] and [undefined] otherwise. *)
Theorem X3_provider_failure_is_500 (E : env) (w : world) (h tok : string)
  (e : error) :
  startsWith "Bearer " h = true ->
  index (split " " h) 1 = VStr tok ->
  tok <> "" ->
  verifyIdToken E tok = Throw e ->
  code_is e "auth/id-token-expired" = false ->
  code_is e "auth/argument-error" = false ->
  code_is e "auth/invalid-id-token" = false ->
  exists b,
    isAuthenticated E (Some h) w = (Respond (mkResponse 500 b), w)
    /\ prop "code" b = VStr "AUTH_ERROR"
    /\ (NODE_ENV E = Some "development" ->
        prop "details" b = VStr (err_message e))
    /\ (NODE_ENV E <> Some "development" -> prop "details" b = VUndef).
Proof.
  intros Hpre Htok Hne Hver H1 H2 H3.
  rewrite (isAuthenticated_token_rejected E w h tok e Hpre Htok Hne Hver).
  rewrite H1, H2, H3. cbn [orb].
  exists (AUTH_ERROR E e). split; [reflexivity|]. split; [reflexivity|].
  unfold AUTH_ERROR. cbn. split.
  - intros ->. reflexivity.
  - intros Hm. destruct (NODE_ENV E) as [m|]; [|reflexivity].
    destruct (String.eqb m "development") eqn:Hd; [|reflexivity].
    apply String.eqb_eq in Hd. subst m. contradiction.
Qed.

Lemma X3_witness :
  (exists b,
      isAuthenticated (E_unreachable (Some "production"))
        (Some "Bearer tok-alice") w_alice
      = (Respond (mkResponse 500 b), w_alice)
      /\ prop "details" b = VUndef)
  /\ (exists b,
         isAuthenticated (E_unreachable (Some "development"))
           (Some "Bearer tok-alice") w_alice
         = (Respond (mkResponse 500 b), w_alice)
         /\ prop "details" b = VStr "connect ETIMEDOUT").
Proof.
  split.
  - destruct (X3_provider_failure_is_500 (E_unreachable (Some "production"))
                w_alice "Bearer tok-alice" "tok-alice"
                (mkError (Some "app/network-error") "connect ETIMEDOUT")
                eq_refl eq_refl) as (b & Hrun & _ & _ & Hprod);
      try reflexivity; try discriminate.
    exists b. split; [exact Hrun|]. apply Hprod. discriminate.
  - destruct (X3_provider_failure_is_500 (E_unreachable (Some "development"))
                w_alice "Bearer tok-alice" "tok-alice"
                (mkError (Some "app/network-error") "connect ETIMEDOUT")
                eq_refl eq_refl) as (b & Hrun & _ & Hdev & _);
      try reflexivity; try discriminate.
    exists b. split; [exact Hrun|]. apply Hdev. reflexivity.
Defined.

(** X4.  With a verified token: when the store fails while the profile is
    fetched the answer is 500 with code [USER_FETCH_ERROR], the same
    whatever the store's error was; when the store has no profile under the
    token's uid the answer is 404 with code [USER_NOT_FOUND]. *)
Theorem X4_profile_lookup_failures (E : env) (w : world) (h tok : string)
  (d : decodedToken) :
  startsWith "Bearer " h = true ->
  index (split " " h) 1 = VStr tok ->
  tok <> "" ->
  verifyIdToken E tok = Ok d ->
  (fault E OpDocGet <> None ->
   isAuthenticated E (Some h) w = (Middleware.json 500 USER_FETCH_ERROR, w))
  /\ (fault E OpDocGet = None ->
      find_doc (uid d) (users w) = None ->
      isAuthenticated E (Some h) w = (Middleware.json 404 USER_NOT_FOUND, w)).
Proof.
  intros Hpre Htok Hne Hver.
  rewrite (isAuthenticated_token_accepted E w h tok d Hpre Htok Hne Hver).
  split.
  - intros Hf. destruct (fault E OpDocGet); [reflexivity | contradiction].
  - intros Hf Hdoc. now rewrite Hf, Hdoc.
Qed.

Lemma X4_witness :
  isAuthenticated E_store_down (Some "Bearer tok-alice") w_alice
  = (Middleware.json 500 USER_FETCH_ERROR, w_alice)
  /\ isAuthenticated E_sample (Some "Bearer tok-alice")
       (mkWorld [] [("u1", alice_account)] [])
     = (Middleware.json 404 USER_NOT_FOUND,
        mkWorld [] [("u1", alice_account)] []).
Proof.
  split.
  - apply (proj1 (X4_profile_lookup_failures E_store_down w_alice
                    "Bearer tok-alice" "tok-alice" alice_claims
                    eq_refl eq_refl ltac:(discriminate) eq_refl)).
    discriminate.
  - apply (proj2 (X4_profile_lookup_failures E_sample
                    (mkWorld [] [("u1", alice_account)] [])
                    "Bearer tok-alice" "tok-alice" alice_claims
                    eq_refl eq_refl ltac:(discriminate) eq_refl));
      reflexivity.
Defined.

Lemma split_spaceless (tok : string) :
  spaceless tok = true -> split " " tok = [tok].
Proof.
  unfold spaceless. induction tok as [|c tok IH]; simpl; [reflexivity|].
  intros H. apply andb_true_iff in H. destruct H as [Hc Hrest].
  apply negb_true_iff in Hc. rewrite Hc, (IH Hrest). reflexivity.
Qed.

Lemma split_spaceless_app (tok rest : string) :
  spaceless tok = true ->
  split " " (tok ++ String " " rest) = tok :: split " " rest.
Proof.
  unfold spaceless. induction tok as [|c tok IH]; simpl; [reflexivity|].
  intros H. apply andb_true_iff in H. destruct H as [Hc Hrest].
  apply negb_true_iff in Hc. rewrite Hc, (IH Hrest). reflexivity.
Qed.

Lemma startsWith_bearer (x : string) :
  startsWith "Bearer " ("Bearer " ++ x) = true.
Proof. cbn. now destruct x. Qed.

Lemma bearer_segments (tok rest : string) :
  spaceless tok = true ->
  split " " ("Bearer " ++ tok) = ["Bearer"; tok]
  /\ split " " ("Bearer " ++ tok ++ " " ++ rest)
     = "Bearer" :: tok :: split " " rest.
Proof.
  intros Hs. split.
  - change ("Bearer " ++ tok) with ("Bearer" ++ String " " tok).
    rewrite split_spaceless_app by reflexivity.
    now rewrite split_spaceless.
  - change ("Bearer " ++ tok ++ " " ++ rest)
      with ("Bearer" ++ String " " (tok ++ String " " rest)).
    rewrite split_spaceless_app by reflexivity.
    now rewrite split_spaceless_app.
Qed.

Lemma bearer_suffix_ignored (E : env) (w : world) (tok rest : string) :
  spaceless tok = true ->
  isAuthenticated E (Some ("Bearer " ++ tok ++ " " ++ rest)) w
  = isAuthenticated E (Some ("Bearer " ++ tok)) w.
Proof.
  intros Hs. destruct (bearer_segments tok rest Hs) as [H1 H2].
  apply (isAuthenticated_header E w ("Bearer " ++ tok ++ " " ++ rest)
           ("Bearer " ++ tok)).
  - apply startsWith_bearer.
  - apply startsWith_bearer.
  - now rewrite H1, H2.
Qed.

(** X5.  The token [isAuthenticated] verifies is the run of characters
    between the first space of the header and the next one: for a token
    without spaces, ['Bearer <token>'] yields that token, and whatever
    follows a further space is ignored.  In particular a second space right
    after ['Bearer '] makes the token empty. *)
Theorem X5_bearer_token_is_second_segment (E : env) (w : world)
  (tok rest : string) :
  spaceless tok = true ->
  index (split " " ("Bearer " ++ tok)) 1 = VStr tok
  /\ isAuthenticated E (Some ("Bearer " ++ tok ++ " " ++ rest)) w
     = isAuthenticated E (Some ("Bearer " ++ tok)) w
  /\ answers (fst (isAuthenticated E (Some ("Bearer  " ++ rest)) w))
             401 "EMPTY_AUTH_TOKEN".
Proof.
  intros Hs. split; [|split].
  - now rewrite (proj1 (bearer_segments tok rest Hs)).
  - now apply bearer_suffix_ignored.
  - change ("Bearer  " ++ rest) with ("Bearer " ++ "" ++ " " ++ rest).
    rewrite (bearer_suffix_ignored E w "" rest eq_refl).
    exists EMPTY_AUTH_TOKEN. split; reflexivity.
Qed.

Lemma X5_witness :
  index (split " " "Bearer tok-alice") 1 = VStr "tok-alice"
  /\ isAuthenticated E_sample (Some "Bearer tok-alice role=admin") w_alice
     = isAuthenticated E_sample (Some "Bearer tok-alice") w_alice.
Proof.
  destruct (X5_bearer_token_is_second_segment E_sample w_alice
              "tok-alice" "role=admin" eq_refl) as (H1 & H2 & _).
  split; [exact H1 | exact H2].
Defined.

(** X6.  The Principal's [role] and [status] are those of the profile
    stored under the uid of the request's own token: the token contributes
    neither.  So a request passes [isAuthenticated] and then [isAdmin]
    exactly when it passes [isAuthenticated] and the profile stored under
    its token's uid has role ['admin']. *)
Theorem X6_admin_by_stored_role (E : env) (h : option string) (w : world)
  (u : option obj) :
  fst (isAuthenticated E h w) = Next u ->
  exists s tok d data p,
    h = Some s
    /\ index (split " " s) 1 = VStr tok
    /\ verifyIdToken E tok = Ok d
    /\ find_doc (uid d) (users w) = Some data
    /\ u = Some p
    /\ prop "role" p = prop "role" data
    /\ prop "status" p = prop "status" data
    /\ (isAdmin u = Next u <-> prop "role" data = VStr "admin").
Proof.
  intros Hrun.
  destruct (isAuthenticated E h w) as [r w'] eqn:Heq. cbn in Hrun. subst r.
  destruct (isAuthenticated_next E h w w' u Heq)
    as (s & tok & d & data & Hh & Htok & Hver & Hdoc & _ & Hu & _).
  exists s, tok, d, data, (principal d (spread [("id", VStr (uid d))] data)).
  split; [exact Hh|]. split; [exact Htok|]. split; [exact Hver|].
  split; [exact Hdoc|]. split; [exact Hu|].
  assert (Hrole : prop "role" (principal d (spread [("id", VStr (uid d))] data))
                  = prop "role" data)
    by (apply principal_field; discriminate).
  split; [exact Hrole|].
  split; [apply principal_field; discriminate|].
  subst u. unfold isAdmin. rewrite Hrole.
  destruct (strict_eq (prop "role" data) (VStr "admin")) eqn:Ha; cbn [negb].
  - apply strict_eq_str in Ha. split; auto.
  - split; [discriminate|]. intros Hr. apply strict_eq_str in Hr. congruence.
Qed.

Lemma X6_witness :
  exists s tok d data p,
    Some "Bearer tok-alice" = Some s
    /\ index (split " " s) 1 = VStr tok
    /\ verifyIdToken E_sample tok = Ok d
    /\ find_doc (uid d) (users w_alice) = Some data
    /\ Some alice_principal = Some p
    /\ prop "role" p = prop "role" data
    /\ prop "status" p = prop "status" data
    /\ (isAdmin (Some alice_principal) = Next (Some alice_principal)
        <-> prop "role" data = VStr "admin").
Proof.
  apply (X6_admin_by_stored_role E_sample (Some "Bearer tok-alice") w_alice).
  reflexivity.
Defined.

(* ================================================================== *)
(** * Further properties of the access gates *)
(* ================================================================== *)

Lemma includes_iff (roles : list string) (v : value) :
  includes roles v = true <-> exists r, In r roles /\ v = VStr r.
Proof.
  unfold includes. rewrite existsb_exists. split.
  - intros [r [Hin Heq]]. exists r. split; [exact Hin|].
    destruct v; simpl in Heq; try discriminate.
    apply String.eqb_eq in Heq. now subst.
  - intros [r [Hin ->]]. exists r. split; [exact Hin|].
    simpl. apply String.eqb_refl.
Qed.

Lemma strict_eq_sym_str (v : value) (s : string) :
  strict_eq (VStr s) v = strict_eq v (VStr s).
Proof.
  destruct v; cbn [strict_eq]; try reflexivity. apply String.eqb_sym.
Qed.

(** X7.  [hasRole(roles)] lets a principal through exactly when its role is
    one of the listed strings; with the default empty list it answers 403 to
    every principal; and [hasRole(['admin'])] lets through exactly the
    principals [isAdmin] lets through. *)
Theorem X7_hasRole_membership (roles : list string) (u : obj) :
  (hasRole roles (Some u) = Next (Some u)
   <-> exists r, In r roles /\ prop "role" u = VStr r)
  /\ (exists b, hasRole [] (Some u) = Respond (mkResponse 403 b))
  /\ (hasRole ["admin"] (Some u) = Next (Some u)
      <-> isAdmin (Some u) = Next (Some u)).
Proof.
  split; [|split].
  - unfold hasRole.
    destruct (includes roles (prop "role" u)) eqn:Hi; cbn [negb].
    + apply includes_iff in Hi. split; auto.
    + split; [discriminate|]. intros Hex. apply includes_iff in Hex. congruence.
  - eexists. reflexivity.
  - unfold hasRole, isAdmin, includes. cbn [existsb]. rewrite orb_false_r.
    rewrite strict_eq_sym_str. destruct (strict_eq _ _); cbn [negb]; split; auto; discriminate.
Qed.

Lemma X7_witness :
  hasRole ["doctor"; "patient"] (Some alice_principal)
  = Next (Some alice_principal)
  /\ isAdmin (Some admin_principal) = Next (Some admin_principal).
Proof.
  split.
  - apply (proj1 (X7_hasRole_membership ["doctor"; "patient"] alice_principal)).
    exists "patient". split; [right; now left | reflexivity].
  - apply (proj2 (proj2 (X7_hasRole_membership [] admin_principal))).
    reflexivity.
Defined.

(** X8.  No gate lets a request through without a principal: each answers
    401.  A gate that lets a request through leaves its principal as it is.
    Whoever passes [isAdmin] passes [isOwnerOrAdmin] for every parameter
    name and every resource id. *)
Theorem X8_gates_compose (roles : list string) (idParam : string)
  (ps : params) (user : option obj) :
  (isAdmin None = Middleware.json 401 unauthenticated
   /\ hasRole roles None = Middleware.json 401 unauthenticated
   /\ isOwnerOrAdmin idParam None ps = Middleware.json 401 unauthenticated)
  /\ (forall u', isAdmin user = Next u' -> u' = user /\ user <> None)
  /\ (forall u', hasRole roles user = Next u' -> u' = user /\ user <> None)
  /\ (forall u', isOwnerOrAdmin idParam user ps = Next u' ->
                 u' = user /\ user <> None)
  /\ (isAdmin user = Next user -> isOwnerOrAdmin idParam user ps = Next user).
Proof.
  split; [repeat split|].
  destruct user as [u|].
  - unfold isAdmin, hasRole, isOwnerOrAdmin.
    destruct (strict_eq (prop "role" u) (VStr "admin")); cbn [negb];
      destruct (includes roles (prop "role" u)); cbn [negb]; cbv zeta;
      destruct (identical (param idParam ps) (prop "id" u)); cbn [negb];
      repeat split; intros; try discriminate; try congruence.
  - repeat split; intros; discriminate.
Qed.

Lemma X8_witness :
  isOwnerOrAdmin "id" (Some admin_principal) [("id", "u1")]
  = Next (Some admin_principal).
Proof.
  apply (proj2 (proj2 (proj2 (proj2
           (X8_gates_compose [] "id" [("id", "u1")] (Some admin_principal)))))).
  reflexivity.
Defined.

(** X9.  The check [getUserById] makes itself is the self-or-admin gate on
    the parameter [id]: it answers its 403 exactly when
    [isOwnerOrAdmin('id')] would deny the request, and then it reads
    nothing. *)
Theorem X9_getUserById_guard_is_the_gate (E : env) (user : obj)
  (id : string) (w : world) :
  (isOwnerOrAdmin "id" (Some user) [("id", id)]
   = Respond (mkResponse 403 ownership_denied)
   -> UserController.getUserById E user id w
      = (mkResponse 403
           [("error", VStr "No autorizado");
            ("details", VStr "No tienes permiso para ver este perfil")], w))
  /\ (isOwnerOrAdmin "id" (Some user) [("id", id)] = Next (Some user)
      -> status (fst (UserController.getUserById E user id w)) <> 403).
Proof.
  unfold isOwnerOrAdmin, UserController.getUserById.
  cbn [param own identical String.eqb Ascii.eqb Bool.eqb]. cbv zeta.
  rewrite strict_eq_sym_str.
  destruct (strict_eq (prop "role" user) (VStr "admin")) eqn:Ha;
    destruct (strict_eq (prop "id" user) (VStr id)) eqn:Hs;
    cbn [negb andb]; split; intros H; try discriminate H; try reflexivity.
  all: cbv beta iota zeta delta [handler bind try_catch ret throw
                                 UserModel.getUserById doc_get auth_getUser].
  all: destruct (String.eqb id ""); [cbn; discriminate|].
  all: destruct (fault E OpDocGet); [cbn; discriminate|].
  all: destruct (find_doc id (users w)); [|cbn; discriminate].
  all: destruct (fault E OpAuthGetUser) as [e|];
    [destruct (code_is e "auth/user-not-found"); cbn; discriminate|].
  all: destruct (find_account id (accounts w)); cbn; discriminate.
Qed.

Lemma X9_witness :
  UserController.getUserById E_sample alice_principal "u9" w_clinic
  = (mkResponse 403
       [("error", VStr "No autorizado");
        ("details", VStr "No tienes permiso para ver este perfil")], w_clinic)
  /\ status (fst (UserController.getUserById E_sample alice_principal "u1"
                    w_clinic)) <> 403.
Proof.
  split.
  - apply (proj1 (X9_getUserById_guard_is_the_gate E_sample alice_principal
                    "u9" w_clinic)).
    reflexivity.
  - apply (proj2 (X9_getUserById_guard_is_the_gate E_sample alice_principal
                    "u1" w_clinic)).
    reflexivity.
Defined.

(* ================================================================== *)
(** * Properties of the profile store ([userModel.js]) *)
(* ================================================================== *)



Lemma find_doc_update_docs (id id' : string) (fields : obj) (us : list doc) :
  find_doc id' (update_docs id fields us)
  = if String.eqb id id'
    then match find_doc id' us with
         | Some data => Some (spread data fields)
         | None => None
         end
    else find_doc id' us.
Proof.
  unfold find_doc, update_docs.
  induction us as [|[i o] us IH]; cbn [map find fst snd].
  - now destruct (String.eqb id id').
  - destruct (String.eqb id i) eqn:Hi; cbn [fst snd].
    + apply String.eqb_eq in Hi. subst i.
      destruct (String.eqb id' id) eqn:Hi'.
      * apply String.eqb_eq in Hi'. subst id'. now rewrite String.eqb_refl.
      * rewrite IH. rewrite String.eqb_sym, Hi'. reflexivity.
    + destruct (String.eqb id' i) eqn:Hi'.
      * apply String.eqb_eq in Hi'. subst i. now rewrite Hi.
      * exact IH.
Qed.

(** [UserModel.updateUser] once store and document are there. *)
Lemma updateUser_run (E : env) (u : string) (updates data : obj) (w : world) :
  u <> "" ->
  fault E OpDocUpdate = None ->
  find_doc u (users w) = Some data ->
  let fields := spread (omit ["id"] updates)
                       [("updatedAt", ProfileStore.serverTimestamp E)] in
  let w' := mkWorld (update_docs u fields (users w)) (accounts w)
                    (trace w ++ [EvDocUpdate u fields]) in
  ProfileStore.updateUser E (VStr u) updates w
  = match fault E OpDocGet with
    | Some _ =>
        (Throw (Error_ "Error al actualizar los datos del usuario"), w')
    | None =>
        (Ok (spread [("id", VStr u)] (spread data fields)), w')
    end.
Proof.
  intros Hne Hf Hdoc fields w'. apply String.eqb_neq in Hne.
  unfold ProfileStore.updateUser. rewrite Hne.
  cbv beta iota zeta delta [try_catch bind doc_update doc_get ret throw].
  rewrite Hf, Hdoc. cbn [users accounts trace].
  destruct (fault E OpDocGet); [reflexivity|].
  rewrite find_doc_update_docs, String.eqb_refl, Hdoc. reflexivity.
Qed.

(** X11.  [UserModel.updateUser] on an existing profile, for an update made
    of plain field names and defined values: every key of the update except
    [id] is written as given, [updatedAt] is stamped, the document's [id]
    field and the keys the update does not name stay as they were, the other
    documents are untouched, and the answer is the document as stored.  On a
    profile that does not exist nothing is written and the error thrown is
    ['Error al actualizar los datos del usuario']. *)
Theorem X11_updateUser_writes_all_but_id (E : env) (u : string)
  (updates : obj) (w : world) :
  u <> "" ->
  plain_update updates ->
  fault E OpDocUpdate = None ->
  fault E OpDocGet = None ->
  match find_doc u (users w) with
  | None =>
      ProfileStore.updateUser E (VStr u) updates w
      = (Throw (Error_ "Error al actualizar los datos del usuario"), w)
  | Some data =>
      exists stored w',
        ProfileStore.updateUser E (VStr u) updates w
        = (Ok (spread [("id", VStr u)] stored), w')
        /\ find_doc u (users w') = Some stored
        /\ (forall i, i <> u -> find_doc i (users w') = find_doc i (users w))
        /\ lookup "id" stored = lookup "id" data
        /\ (exists t, lookup "updatedAt" stored = Some (VTime t))
        /\ forall k, k <> "id" -> k <> "updatedAt" ->
                     lookup k stored = match lookup k updates with
                                       | Some v => Some v
                                       | None => lookup k data
                                       end
  end.
Proof.
  intros Hne _ Hfu Hfg.
  destruct (find_doc u (users w)) as [data|] eqn:Hdoc.
  - pose proof (updateUser_run E u updates data w Hne Hfu Hdoc) as Hrun.
    cbv zeta in Hrun. rewrite Hfg in Hrun.
    eexists _, _. split; [exact Hrun|]. cbn [users].
    split; [now rewrite find_doc_update_docs, String.eqb_refl, Hdoc|].
    split.
    { intros i Hi. rewrite find_doc_update_docs.
      apply String.eqb_neq in Hi. now rewrite String.eqb_sym, Hi. }
    split; [|split].
    + rewrite !lookup_spread, lookup_omit. reflexivity.
    + exists (now E). rewrite !lookup_spread. reflexivity.
    + intros k Hk1 Hk2. apply String.eqb_neq in Hk1, Hk2.
      rewrite !lookup_spread, lookup_omit. cbn [lookup existsb].
      rewrite Hk1, Hk2. cbn [orb].
      destruct (lookup k updates); reflexivity.
  - apply String.eqb_neq in Hne.
    unfold ProfileStore.updateUser. rewrite Hne.
    cbv beta iota zeta delta [try_catch bind doc_update doc_get ret throw].
    now rewrite Hfu, Hdoc.
Qed.

Lemma X11_witness :
  exists stored w',
    ProfileStore.updateUser E_sample (VStr "u1")
      [("id", VStr "u9"); ("phone", VStr "555-0100")] w_alice
    = (Ok (spread [("id", VStr "u1")] stored), w')
    /\ find_doc "u1" (users w') = Some stored
    /\ (forall i, i <> "u1" -> find_doc i (users w') = find_doc i (users w_alice))
    /\ lookup "id" stored = lookup "id" alice_profile
    /\ (exists t, lookup "updatedAt" stored = Some (VTime t))
    /\ forall k, k <> "id" -> k <> "updatedAt" ->
                 lookup k stored
                 = match lookup k [("id", VStr "u9"); ("phone", VStr "555-0100")] with
                   | Some v => Some v
                   | None => lookup k alice_profile
                   end.
Proof.
  apply (X11_updateUser_writes_all_but_id E_sample "u1"
           [("id", VStr "u9"); ("phone", VStr "555-0100")] w_alice).
  - discriminate.
  - intros k v [H|[H|[]]]; injection H as <- <-; split; reflexivity.
  - reflexivity.
  - reflexivity.
Defined.



(* ================================================================== *)
(** * Properties of the profile and password handlers *)
(* ================================================================== *)

Import AccountHandlers.

(** The store after [updateProfile]: as before, or with the caller's
    document rewritten by the body less [id], [email], [emailVerified]. *)
Lemma updateProfile_store (E : env) (user body : obj) (w : world) :
  snd (updateProfile E user body w) = w
  \/ exists u,
       prop "id" user = VStr u
       /\ users (snd (updateProfile E user body w))
          = update_docs u
              (spread (omit ["id"] (omit ["id"; "email"; "emailVerified"] body))
                      [("updatedAt", ProfileStore.serverTimestamp E)])
              (users w).
Proof.
  unfold updateProfile, ProfileStore.updateUser.
  cbv beta iota zeta delta [handler try_catch bind doc_update doc_get ret throw].
  destruct (prop "id" user) as [| | | |u| |]; try (left; reflexivity).
  destruct (String.eqb u ""); [left; reflexivity|].
  destruct (fault E OpDocUpdate); [left; reflexivity|].
  destruct (find_doc u (users w)); [|left; reflexivity].
  right. exists u. split; [reflexivity|].
  cbn [users accounts trace].
  destruct (fault E OpDocGet); reflexivity.
Qed.

(** X13.  Whatever body it is given (plain field names, defined values) and
    whether it succeeds or fails, [updateProfile] leaves the [id], [email]
    and [emailVerified] fields of every stored profile as they were, and
    neither creates nor removes a profile. *)
Theorem X13_updateProfile_keeps_identity_fields (E : env) (user body : obj)
  (w : world) (i k : string) :
  plain_update body ->
  In k ["id"; "email"; "emailVerified"] ->
  match find_doc i (users (snd (updateProfile E user body w))),
        find_doc i (users w) with
  | Some stored, Some data => lookup k stored = lookup k data
  | None, None => True
  | _, _ => False
  end.
Proof.
  intros _ Hk.
  destruct (updateProfile_store E user body w) as [Hw|[u [_ Hus]]].
  - rewrite Hw. now destruct (find_doc i (users w)).
  - rewrite Hus, find_doc_update_docs.
    destruct (String.eqb u i); destruct (find_doc i (users w)); auto.
    rewrite !lookup_spread, !lookup_omit.
    destruct Hk as [<-|[<-|[<-|[]]]]; reflexivity.
Qed.

Lemma X13_witness :
  match find_doc "u1"
          (users (snd (updateProfile E_sample alice_principal
                         [("email", VStr "mallory@evil.example");
                          ("emailVerified", VBool true);
                          ("phone", VStr "555-0100")] w_alice))),
        find_doc "u1" (users w_alice) with
  | Some stored, Some data => lookup "email" stored = lookup "email" data
  | None, None => True
  | _, _ => False
  end.
Proof.
  apply (X13_updateProfile_keeps_identity_fields E_sample alice_principal
           [("email", VStr "mallory@evil.example");
            ("emailVerified", VBool true);
            ("phone", VStr "555-0100")] w_alice "u1" "email").
  - intros k v [H|[H|[H|[]]]]; injection H as <- <-; split; reflexivity.
  - right. left. reflexivity.
Defined.

(** X14.  [updateProfile] writes every other key of the body to the
    caller's own profile, [role] included.  After an active caller has sent
    a body with [role: 'admin'] (and no [status]), the answer is 200, and
    every later request with a token of that uid passes [isAuthenticated]
    and then [isAdmin]. *)
Theorem X14_updateProfile_can_grant_admin (E : env) (user body data : obj)
  (u : string) (w : world) :
  prop "id" user = VStr u ->
  u <> "" ->
  plain_update body ->
  lookup "role" body = Some (VStr "admin") ->
  lookup "status" body = None ->
  fault E OpDocUpdate = None ->
  fault E OpDocGet = None ->
  find_doc u (users w) = Some data ->
  prop "status" data = VStr "active" ->
  status (fst (updateProfile E user body w)) = 200
  /\ (exists stored,
         find_doc u (users (snd (updateProfile E user body w))) = Some stored
         /\ prop "role" stored = VStr "admin")
  /\ forall E' h tok d,
       startsWith "Bearer " h = true ->
       index (split " " h) 1 = VStr tok ->
       tok <> "" ->
       verifyIdToken E' tok = Ok d ->
       uid d = u ->
       fault E' OpDocGet = None ->
       exists p,
         isAuthenticated E' (Some h) (snd (updateProfile E user body w))
         = (Next (Some p), snd (updateProfile E user body w))
         /\ isAdmin (Some p) = Next (Some p).
Proof.
  intros Hid Hne _ Hrole Hstat Hfu Hfg Hdoc Hact.
  pose (fields := spread (omit ["id"] (omit ["id"; "email"; "emailVerified"] body))
                         [("updatedAt", ProfileStore.serverTimestamp E)]).
  pose (w' := mkWorld (update_docs u fields (users w)) (accounts w)
                      (trace w ++ [EvDocUpdate u fields])).
  assert (Hrun : updateProfile E user body w
                 = (json 200
                      [("message", VStr "Perfil actualizado exitosamente");
                       ("user", VObj (spread [("id", VStr u)] (spread data fields)))],
                    w')).
  { unfold updateProfile, handler, bind at 1. rewrite Hid.
    pose proof (updateUser_run E u (omit ["id"; "email"; "emailVerified"] body)
                  data w Hne Hfu Hdoc) as Hu.
    cbv zeta in Hu. rewrite Hfg in Hu. rewrite Hu. reflexivity. }
  rewrite Hrun. cbn [fst snd].
  assert (Hstored : find_doc u (users w') = Some (spread data fields)).
  { cbn [w' users]. now rewrite find_doc_update_docs, String.eqb_refl, Hdoc. }
  assert (Hr : prop "role" (spread data fields) = VStr "admin").
  { rewrite prop_spread. unfold fields.
    rewrite lookup_spread, !lookup_omit. cbn [lookup existsb String.eqb Ascii.eqb Bool.eqb orb].
    now rewrite Hrole. }
  assert (Hs : prop "status" (spread data fields) = VStr "active").
  { rewrite prop_spread. unfold fields.
    rewrite lookup_spread, !lookup_omit. cbn [lookup existsb String.eqb Ascii.eqb Bool.eqb orb].
    now rewrite Hstat. }
  split; [reflexivity|]. split; [now exists (spread data fields)|].
  intros E' h tok d Hpre Htok Htne Hver Hu Hfg'. subst u.
  rewrite (isAuthenticated_resolved E' w' h tok d (spread data fields)
             Hpre Htok Htne Hver Hfg' Hstored).
  cbv zeta.
  assert (Hs' : prop "status" (spread [("id", VStr (uid d))] (spread data fields))
                = VStr "active").
  { rewrite prop_spread. unfold prop in Hs |- *.
    destruct (lookup "status" (spread data fields)); [exact Hs | discriminate Hs]. }
  rewrite Hs'. cbn [strict_eq negb]. rewrite String.eqb_refl.
  eexists. split; [reflexivity|].
  unfold isAdmin. rewrite principal_field by discriminate.
  rewrite Hr. reflexivity.
Qed.

Lemma X14_witness :
  status (fst (updateProfile E_sample alice_principal
                 [("role", VStr "admin")] w_alice)) = 200
  /\ exists p,
       isAuthenticated E_sample (Some "Bearer tok-alice")
         (snd (updateProfile E_sample alice_principal
                 [("role", VStr "admin")] w_alice))
       = (Next (Some p),
          snd (updateProfile E_sample alice_principal
                 [("role", VStr "admin")] w_alice))
       /\ isAdmin (Some p) = Next (Some p).
Proof.
  destruct (X14_updateProfile_can_grant_admin E_sample alice_principal
              [("role", VStr "admin")] alice_profile "u1" w_alice)
    as (H200 & _ & Hlater); try reflexivity; try discriminate.
  { intros k v [H|[]]; injection H as <- <-; split; reflexivity. }
  split; [exact H200|].
  apply (Hlater E_sample "Bearer tok-alice" "tok-alice" alice_claims);
    try reflexivity; discriminate.
Defined.





(** The provider's fields are laid over a listed profile, or nothing is:
    either way the call succeeds, reads only, and leaves the other keys of
    the profile alone. *)
Lemma withAuth_keeps_profile (E : env) (user : obj) (w : world) :
  exists user',
    withAuth E user w = (Ok user', w)
    /\ forall k, ~ In k ["email"; "emailVerified"; "disabled"; "metadata"] ->
                 lookup k user' = lookup k user.
Proof.
  unfold withAuth, try_catch, bind, ret, throw, auth_getUser.
  destruct (prop "id" user) as [| | | |u| |];
    try (exists user; split; [reflexivity | auto]).
  destruct (fault E OpAuthGetUser); [exists user; split; [reflexivity | auto]|].
  destruct (find_account u (accounts w)) as [a|];
    [|exists user; split; [reflexivity | auto]].
  eexists. split; [reflexivity|].
  intros k Hk. rewrite lookup_spread. cbn [lookup].
  destruct (String.eqb k "email") eqn:H1.
  { apply String.eqb_eq in H1. subst k. exfalso. apply Hk. cbn. auto. }
  destruct (String.eqb k "emailVerified") eqn:H2.
  { apply String.eqb_eq in H2. subst k. exfalso. apply Hk. cbn. auto. }
  destruct (String.eqb k "disabled") eqn:H3.
  { apply String.eqb_eq in H3. subst k. exfalso. apply Hk. cbn. auto. }
  destruct (String.eqb k "metadata") eqn:H4.
  { apply String.eqb_eq in H4. subst k. exfalso. apply Hk. cbn. auto. }
  reflexivity.
Qed.

Lemma all_withAuth (E : env) (l : list obj) (w : world) :
  exists l',
    all (withAuth E) l w = (Ok l', w)
    /\ Forall2 (fun user user' =>
                  forall k,
                    ~ In k ["email"; "emailVerified"; "disabled"; "metadata"] ->
                    lookup k user' = lookup k user) l l'.
Proof.
  induction l as [|user l IH]; cbn [all].
  - exists []. split; [reflexivity | constructor].
  - destruct (withAuth_keeps_profile E user w) as (user' & Hu & Hk).
    destruct IH as (l' & Hl & Hf).
    exists (user' :: l'). split.
    + unfold bind at 1. rewrite Hu. unfold bind at 1. rewrite Hl. reflexivity.
    + now constructor.
Qed.

(** X16.  [getAllUsers] refuses every caller whose role is not ['admin']
    with 403 and reads nothing.  For an admin, when the search succeeds, the
    store is asked for status ['active'] unless the query names a status, and
    the listing has one entry per selected document, in order, each with the
    keys of the stored profile ([password] and [tokens] removed) unchanged
    except [email], [emailVerified], [disabled] and [metadata]: a provider
    failure on one profile never drops it.  When the search fails the answer
    is 500.  Nothing is written in any case. *)
Theorem X16_getAllUsers_lists_every_selected_profile (E : env)
  (user query : obj) (w : world) :
  snd (getAllUsers E user query w) = w
  /\ (prop "role" user <> VStr "admin" ->
      exists b, fst (getAllUsers E user query w) = Refused (mkResponse 403 b))
  /\ (prop "role" user = VStr "admin" ->
      fault E OpSearch <> None ->
      exists b, fst (getAllUsers E user query w) = Refused (mkResponse 500 b))
  /\ (prop "role" user = VStr "admin" ->
      fault E OpSearch = None ->
      exists filters listed,
        fst (getAllUsers E user query w) = Listed listed
        /\ prop "role" filters = prop "role" query
        /\ prop "status" filters = match prop "status" query with
                                   | VUndef => VStr "active"
                                   | v => v
                                   end
        /\ Forall2 (fun d listed_user =>
                      forall k,
                        ~ In k ["email"; "emailVerified"; "disabled"; "metadata"] ->
                        lookup k listed_user = lookup k (UserModel.safeUser d))
                   (firestoreSearch E filters 10 VNull (users w)) listed).
Proof.
  unfold getAllUsers.
  destruct (strict_eq (prop "role" user) (VStr "admin")) eqn:Ha; cbn [negb].
  - apply strict_eq_str in Ha. cbv zeta.
    set (filters := if truthy (prop "search" query) then _ else _).
    unfold handler, bind at 1, UserModel.searchUsers, try_catch.
    destruct (fault E OpSearch) as [e|] eqn:Hf.
    + split; [reflexivity|]. split; [congruence|]. split.
      * intros _ _. eexists. reflexivity.
      * intros _ H. discriminate H.
    + destruct (all_withAuth E
                  (map UserModel.safeUser
                       (firestoreSearch E filters 10 VNull (users w))) w)
        as (listed & Hall & Hrel).
      unfold bind. rewrite Hall. cbn [fst snd].
      split; [reflexivity|]. split; [congruence|]. split.
      * intros _ H. contradiction.
      * intros _ _. exists filters, listed. split; [reflexivity|].
        assert (Hfilters : prop "role" filters = prop "role" query
                           /\ prop "status" filters
                              = match prop "status" query with
                                | VUndef => VStr "active"
                                | v => v
                                end).
        { unfold filters. destruct (truthy (prop "search" query)); split;
            reflexivity. }
        split; [apply Hfilters|]. split; [apply Hfilters|].
        clear -Hrel. revert listed Hrel.
        induction (firestoreSearch E filters 10 VNull (users w)) as [|d ds IH];
          intros listed Hrel; inversion Hrel; subst; constructor; auto.
  - split; [reflexivity|]. split.
    + intros _. eexists. reflexivity.
    + split; intros H; apply strict_eq_str in H; congruence.
Qed.

Lemma X16_witness :
  (exists b, fst (getAllUsers E_sample alice_principal [] w_clinic)
             = Refused (mkResponse 403 b))
  /\ exists filters listed,
       fst (getAllUsers E_provider_down admin_principal [] w_clinic)
       = Listed listed
       /\ prop "role" filters = VUndef
       /\ prop "status" filters = VStr "active"
       /\ Forall2 (fun d listed_user =>
                     forall k,
                       ~ In k ["email"; "emailVerified"; "disabled"; "metadata"] ->
                       lookup k listed_user = lookup k (UserModel.safeUser d))
                  (firestoreSearch E_provider_down filters 10 VNull
                     (users w_clinic)) listed.
Proof.
  split.
  - apply (proj1 (proj2 (X16_getAllUsers_lists_every_selected_profile
                           E_sample alice_principal [] w_clinic))).
    vm_compute. discriminate.
  - apply (proj2 (proj2 (proj2 (X16_getAllUsers_lists_every_selected_profile
                                  E_provider_down admin_principal [] w_clinic))));
      reflexivity.
Defined.

(* ================================================================== *)
(** * Further properties of the security-token workflow *)
(* ================================================================== *)

(** X19.  [resetPassword] and [verifyEmail] reach neither the store nor
    the identity provider.  A request without a token (for [resetPassword]:
    without a token or without a new password) is answered 400, every other
    request 500, and never 200; nothing outside is touched; and the answer
    is the same whatever the store holds, the clock says and the services
    do. *)
Theorem X19_consume_answers_by_request_alone (E : env) (input : obj)
  (w : world) :
  (snd (resetPassword E input w) = w /\ snd (verifyEmail E input w) = w)
  /\ (status (fst (resetPassword E input w)) = 400
      <-> truthy (prop "token" input) = false
          \/ truthy (prop "newPassword" input) = false)
  /\ (status (fst (resetPassword E input w)) = 500
      <-> truthy (prop "token" input) = true
          /\ truthy (prop "newPassword" input) = true)
  /\ (status (fst (verifyEmail E input w)) = 400
      <-> truthy (prop "token" input) = false)
  /\ (status (fst (verifyEmail E input w)) = 500
      <-> truthy (prop "token" input) = true)
  /\ (forall E' w',
         fst (resetPassword E' input w') = fst (resetPassword E input w)
         /\ fst (verifyEmail E' input w') = fst (verifyEmail E input w)).
Proof.
  split; [now rewrite resetPassword_run, verifyEmail_run|].
  split; [|split; [|split; [|split]]].
  - rewrite resetPassword_run.
    destruct (truthy (prop "token" input)), (truthy (prop "newPassword" input));
      cbn; split; intros H; auto; try discriminate; destruct H; discriminate.
  - rewrite resetPassword_run.
    destruct (truthy (prop "token" input)), (truthy (prop "newPassword" input));
      cbn; split; intros H; auto; try discriminate; destruct H; discriminate.
  - rewrite verifyEmail_run.
    destruct (truthy (prop "token" input)); cbn; split; intros H; auto;
      discriminate.
  - rewrite verifyEmail_run.
    destruct (truthy (prop "token" input)); cbn; split; intros H; auto;
      discriminate.
  - intros E' w'. now rewrite !resetPassword_run, !verifyEmail_run.
Qed.

(** X21.  [requestPasswordReset] stores no token and sends no email, for
    any email: it leaves store, provider and log as they were.  Its answer
    follows the provider's lookup alone: 500 with the processing error when
    the provider returns an account, 200 with the generic message when the
    lookup throws, whatever the mail service, the store, the clock and the
    random source do. *)
Theorem X21_reset_request_stores_and_mails_nothing (E : env) (body : obj)
  (w : world) :
  snd (requestPasswordReset E body w) = w
  /\ (forall found,
         fst (auth_getUserByEmail E (prop "email" body) w) = Ok found ->
         fst (requestPasswordReset E body w)
         = json 500 [("error", VStr "Error processing password reset request")])
  /\ (forall e,
         fst (auth_getUserByEmail E (prop "email" body) w) = Throw e ->
         fst (requestPasswordReset E body w) = json 200 generic_reset_message)
  /\ (forall E',
         fault E' OpGetUserByEmail = fault E OpGetUserByEmail ->
         requestPasswordReset E' body w = requestPasswordReset E body w).
Proof.
  split; [now rewrite requestPasswordReset_run|].
  split; [|split].
  - intros found Hf. now rewrite requestPasswordReset_run, Hf.
  - intros e Hf. now rewrite requestPasswordReset_run, Hf.
  - intros E' Hfault. rewrite !requestPasswordReset_run.
    unfold auth_getUserByEmail. now rewrite Hfault.
Qed.

Lemma X21_witness :
  fst (requestPasswordReset E_mail_down
         [("email", VStr "alice@new.example")] w_alice)
  = json 500 [("error", VStr "Error processing password reset request")]
  /\ fst (requestPasswordReset E_sample
            [("email", VStr "nobody@example.com")] w_alice)
     = json 200 generic_reset_message.
Proof.
  split.
  - apply (proj1 (proj2 (X21_reset_request_stores_and_mails_nothing
                           E_mail_down [("email", VStr "alice@new.example")]
                           w_alice))
             ("u1", alice_account)).
    reflexivity.
  - apply (proj1 (proj2 (proj2 (X21_reset_request_stores_and_mails_nothing
                                  E_sample [("email", VStr "nobody@example.com")]
                                  w_alice)))
             user_not_found).
    reflexivity.
Defined.

(* ================================================================== *)
(** * Properties of the validation middleware *)
(* ================================================================== *)

Import Validation.

Lemma has_iff (k : string) (o : obj) :
  has k o = true <-> In k (keys o) \/ In k inherited.
Proof.
  unfold has. rewrite orb_true_iff, !existsb_exists. split.
  - intros [[x [Hin Heq]]|[x [Hin Heq]]]; apply String.eqb_eq in Heq; subst x; auto.
  - intros [H|H]; [left|right]; exists k; split; auto; apply String.eqb_refl.
Qed.

Lemma validateRequiredFields_pass (required : list string) (body : obj) :
  validateRequiredFields required body = Pass
  <-> forall f, In f required -> has f body = true.
Proof.
  unfold validateRequiredFields. cbv zeta.
  destruct (filter (fun field => negb (has field body)) required)
    as [|m ms] eqn:Hm.
  - cbn. split; [|reflexivity]. intros _ f Hf.
    destruct (has f body) eqn:Hh; [reflexivity|].
    assert (Hin : In f (filter (fun field => negb (has field body)) required)).
    { apply filter_In. split; [exact Hf | now rewrite Hh]. }
    rewrite Hm in Hin. destruct Hin.
  - assert (Hpos : (0 <? Z.of_nat (List.length (m :: ms))) = true).
    { apply Z.ltb_lt. cbn [List.length]. lia. }
    rewrite Hpos. split; [discriminate|]. intros Hall. exfalso.
    assert (Hin : In m (filter (fun field => negb (has field body)) required)).
    { rewrite Hm. now left. }
    apply filter_In in Hin. destruct Hin as [Hreq Hneg].
    rewrite (Hall m Hreq) in Hneg. discriminate.
Qed.

(** X22.  [validateRequiredFields] lets a body through exactly when every
    required name is a key of the body or a name every object inherits: the
    value under the key is not looked at, so a field sent as [null] counts
    as present, and a required ['toString'] is never missing.  Requiring
    two lists at once is requiring each of them. *)
Theorem X22_required_fields_checks_keys_only (required : list string)
  (body : obj) :
  (validateRequiredFields required body = Pass
   <-> forall f, In f required -> In f (keys body) \/ In f inherited)
  /\ (forall f v, lookup f body = Some v ->
                  validateRequiredFields [f] body = Pass)
  /\ validateRequiredFields ["toString"] body = Pass
  /\ (forall more,
         validateRequiredFields (required ++ more) body = Pass
         <-> validateRequiredFields required body = Pass
             /\ validateRequiredFields more body = Pass).
Proof.
  split; [|split; [|split]].
  - rewrite validateRequiredFields_pass.
    split; intros H f Hf; apply has_iff; auto.
  - intros f v Hv. apply validateRequiredFields_pass.
    intros f' [<-|[]]. apply has_iff. left.
    pose proof (existsb_keys f body) as Hk. rewrite Hv in Hk.
    apply existsb_exists in Hk. destruct Hk as [x [Hin Heq]].
    apply String.eqb_eq in Heq. now subst x.
  - apply validateRequiredFields_pass. intros f [<-|[]].
    apply has_iff. right. cbn. auto 12.
  - intros more. rewrite !validateRequiredFields_pass. split.
    + intros H. split; intros f Hf; apply H, in_or_app; auto.
    + intros [H1 H2] f Hf. apply in_app_or in Hf. destruct Hf; auto.
Qed.

Lemma X22_witness :
  validateRequiredFields ["token"] [("token", VNull)] = Pass.
Proof.
  apply (proj1 (proj2 (X22_required_fields_checks_keys_only ["token"]
                         [("token", VNull)])) "token" VNull).
  reflexivity.
Defined.
